(** * cassandra_keyspace: the keyspace reconciler of community.cassandra

    A shallow embedding of [plugins/modules/cassandra_keyspace.py] and the
    properties of its statement builder, its live-configuration fetch, its
    diff and its top-level flow.

    Conventions of the embedding.
    - Python [str] is [string] (ASCII text); Python [int] is [Z].
    - A [dict] is an insertion-ordered association list with string keys.
    - A call that may raise returns a [res]: a value, a raised exception, or
      the [SystemExit] of [module.exit_json] / [module.fail_json], which an
      [except Exception] clause does not catch.
    - The database server, the write session and the Python evaluator are
      outside the module: they are variables of the sections below. *)

From Stdlib Require Import String Ascii List ZArith Bool Lia DecimalString.
Import ListNotations.
Open Scope string_scope.
Open Scope Z_scope.

(* ================================================================= *)
(** ** Python values, exceptions and results *)

Module Py.

(** The values that occur in the module's dictionaries. *)
Inductive value : Type :=
| VInt (n : Z)
| VStr (s : string)
| VBool (b : bool).

Definition dict : Type := list (string * value).

(** [repr] of a text without quotes, backslashes or control characters. *)
Definition repr (s : string) : string := "'" ++ s ++ "'".

Inductive exn : Type :=
| AttributeError (msg : string)
| TypeError (msg : string)
| KeyError (key : string)
| IndexError (msg : string)
| ValueError (msg : string)
| NameError (name : string)
| EvalError (msg : string)          (* whatever [eval] raises *)
| AuthenticationFailed (msg : string)
| DriverError (msg : string).       (* any other exception of the driver *)

(** [str(excep)], as ["{0}".format(excep)] renders it. *)
Definition exn_str (e : exn) : string :=
  match e with
  | AttributeError m | TypeError m | IndexError m | ValueError m
  | EvalError m | AuthenticationFailed m | DriverError m => m
  | KeyError k => repr k
  | NameError n => "name " ++ repr n ++ " is not defined"
  end.

Definition none_has_no_group : exn :=
  AttributeError "'NoneType' object has no attribute 'group'".
Definition none_not_iterable : exn :=
  TypeError "'NoneType' object is not iterable".

(** *** Text *)

Definition str_of_int (n : Z) : string := NilZero.string_of_int (Z.to_int n).
Definition str_of_bool (b : bool) : string := if b then "True" else "False".

(** [str(v)], also what ["{0}".format(v)] inserts. *)
Definition str (v : value) : string :=
  match v with
  | VInt n => str_of_int n
  | VStr s => s
  | VBool b => str_of_bool b
  end.

Definition lower_ascii (c : ascii) : ascii :=
  let n := nat_of_ascii c in
  if (Nat.leb 65 n && Nat.leb n 90)%bool then ascii_of_nat (n + 32) else c.

Fixpoint lower (s : string) : string :=
  match s with
  | EmptyString => EmptyString
  | String c r => String (lower_ascii c) (lower r)
  end.

(** [bool(s)] of a text: true unless the text is empty. *)
Definition bool_of_str (s : string) : bool :=
  match s with EmptyString => false | String _ _ => true end.

(** [s[:-1]]: the text without its last character. *)
Fixpoint drop_last (s : string) : string :=
  match s with
  | EmptyString => EmptyString
  | String c EmptyString => EmptyString
  | String c r => String c (drop_last r)
  end.

Definition is_digit (c : ascii) : bool :=
  let n := nat_of_ascii c in (Nat.leb 48 n && Nat.leb n 57)%bool.
Definition digit_val (c : ascii) : Z := Z.of_nat (nat_of_ascii c) - 48.

(** The characters [int] strips around a literal. *)
Definition is_space (c : ascii) : bool :=
  let n := nat_of_ascii c in
  ((Nat.leb 9 n && Nat.leb n 13) || (Nat.leb 28 n && Nat.leb n 32))%bool.

Fixpoint lstrip (s : string) : string :=
  match s with
  | String c r => if is_space c then lstrip r else s
  | EmptyString => EmptyString
  end.

Fixpoint all_space (s : string) : bool :=
  match s with
  | EmptyString => true
  | String c r => is_space c && all_space r
  end.

(** Digits with single underscores between them, read in base 10; stops at
    trailing white space.  [prev] tells whether the previous character was
    a digit. *)
Fixpoint digits (prev : bool) (acc : Z) (s : string) : option Z :=
  match s with
  | EmptyString => if prev then Some acc else None
  | String c r =>
      if is_digit c then digits true (10 * acc + digit_val c) r
      else if Ascii.eqb c "_" then
        if prev then digits false acc r else None
      else if (prev && all_space s)%bool then Some acc
      else None
  end.

(** [int(s)] of a text, base 10. *)
Definition int_of_str (s : string) : option Z :=
  match lstrip s with
  | String "-" r => option_map Z.opp (digits false 0 r)
  | String "+" r => digits false 0 r
  | t => digits false 0 t
  end.

(** *** Results *)

Record result_dict : Type := {
  changed : bool;
  keyspace : string;
  cql : option string
}.

(** How an invocation leaves: both [exit_json] and [fail_json] end the
    process through [SystemExit]. *)
Inductive exit : Type :=
| exit_json (r : result_dict)
| fail_json (msg : string).

Inductive res (A : Type) : Type :=
| Ok (a : A)
| Raise (e : exn)
| SystemExit (x : exit).
Arguments Ok {A} a.
Arguments Raise {A} e.
Arguments SystemExit {A} x.

Definition bind {A B} (m : res A) (k : A -> res B) : res B :=
  match m with
  | Ok a => k a
  | Raise e => Raise e
  | SystemExit x => SystemExit x
  end.

Definition of_sum {A} (m : exn + A) : res A :=
  match m with inl e => Raise e | inr a => Ok a end.

(** *** Builtins on values and dictionaries *)

(** [int(v)]. *)
Definition int (v : value) : res Z :=
  match v with
  | VInt n => Ok n
  | VBool b => Ok (if b then 1 else 0)
  | VStr s =>
      match int_of_str s with
      | Some n => Ok n
      | None =>
          Raise (ValueError ("invalid literal for int() with base 10: " ++ repr s))
      end
  end.

(** [a == b]: numbers (booleans included) by value, texts by content. *)
Definition value_eqb (a b : value) : bool :=
  match a, b with
  | VStr s, VStr t => String.eqb s t
  | VStr _, _ | _, VStr _ => false
  | VInt n, VInt m => Z.eqb n m
  | VInt n, VBool c => Z.eqb n (if c then 1 else 0)
  | VBool c, VInt m => Z.eqb (if c then 1 else 0) m
  | VBool c, VBool d => Bool.eqb c d
  end.

Fixpoint get (d : dict) (k : string) : option value :=
  match d with
  | [] => None
  | (k', v) :: r => if String.eqb k k' then Some v else get r k
  end.

(** [d[k]]. *)
Definition getitem (d : dict) (k : string) : res value :=
  match get d k with
  | Some v => Ok v
  | None => Raise (KeyError k)
  end.

(** [d[k] = v]: an existing key keeps its place. *)
Fixpoint setitem (d : dict) (k : string) (v : value) : dict :=
  match d with
  | [] => [(k, v)]
  | (k', v') :: r =>
      if String.eqb k k' then (k', v) :: r else (k', v') :: setitem r k v
  end.

Definition keys (d : dict) : list string := map fst d.

(** [k in xs]. *)
Definition contains (xs : list string) (k : string) : bool :=
  existsb (String.eqb k) xs.

End Py.

Import Py.

Declare Scope py_scope.
Delimit Scope py_scope with py.
Notation "x <- m ;; k" := (bind m (fun x => k))
  (at level 61, m at next level, right associativity) : py_scope.
Open Scope py_scope.

(* ================================================================= *)
(** ** The regular expressions of [get_keyspace_config] *)

Definition newline : ascii := ascii_of_nat 10.

(** The longest prefix of the first line of [s] that ends in a closing
    brace: what the greedy "any characters, then a closing brace" part of
    [dict_regexp] matches at the start of [s] (the dot stops at a line
    break). *)
Fixpoint upto_last_brace (s : string) : option string :=
  match s with
  | EmptyString => None
  | String c r =>
      if Ascii.eqb c newline then None
      else match upto_last_brace r with
           | Some m => Some (String c m)
           | None => if Ascii.eqb c "}" then Some (String c EmptyString) else None
           end
  end.

(** [re.search(dict_regexp, s)]: group 0 of the leftmost match of an
    opening brace, any characters, a closing brace. *)
Fixpoint search_dict (s : string) : option string :=
  match s with
  | EmptyString => None
  | String c r =>
      if Ascii.eqb c "{" then
        match upto_last_brace r with
        | Some m => Some (String c m)
        | None => search_dict r
        end
      else search_dict r
  end.

Definition durable_writes_at (s : string) : option string :=
  if String.prefix "DURABLE_WRITES = True;" s then Some "DURABLE_WRITES = True;"
  else if String.prefix "DURABLE_WRITES = False;" s then Some "DURABLE_WRITES = False;"
  else None.

(** [re.search(durable_writes_regexp, s)]: group 0 of the leftmost match
    of [DURABLE_WRITES = ] followed by [True;] or [False;]. *)
Fixpoint search_durable_writes (s : string) : option string :=
  match durable_writes_at s with
  | Some m => Some m
  | None =>
      match s with
      | EmptyString => None
      | String _ r => search_durable_writes r
      end
  end.

(* ================================================================= *)
(** ** Connection handles *)

(** Modelled from the spec: the driver's [ConsistencyLevel.name_to_value]
    table, which is not part of this repository.  The names are the levels
    the specification lists and the module documents as choices of
    [consistency_level]; the numbers are the driver's codes, and no property
    below depends on them. *)
Definition name_to_value : list (string * Z) :=
  [ ("ANY", 0); ("ONE", 1); ("TWO", 2); ("THREE", 3); ("QUORUM", 4);
    ("ALL", 5); ("LOCAL_QUORUM", 6); ("EACH_QUORUM", 7); ("SERIAL", 8);
    ("LOCAL_SERIAL", 9); ("LOCAL_ONE", 10) ].

Fixpoint lookup {A} (t : list (string * A)) (k : string) : option A :=
  match t with
  | [] => None
  | (k', v) :: r => if String.eqb k k' then Some v else lookup r k
  end.

Record ExecutionProfile : Type := { profile_consistency_level : Z }.

Record PlainTextAuthProvider : Type := {
  username : string;
  password : option string
}.

Record SSLContext : Type := {
  verify_mode : string;
  verify_locations : option string
}.

(** A [Cluster] object.  [execution_profiles = None] is a handle built
    without [execution_profiles]: it works at the cluster default level. *)
Record Cluster : Type := {
  contact_points : list string;
  port : Z;
  auth_provider : option PlainTextAuthProvider;
  ssl_context : option SSLContext;
  execution_profiles : option ExecutionProfile
}.

Definition get_read_and_write_sessions
    (login_host : list string) (login_port : Z)
    (auth : option PlainTextAuthProvider) (ssl : option SSLContext)
    (level : string) : res (Cluster * Cluster) :=
  v <- match lookup name_to_value level with
       | Some v => Ok v
       | None => Raise (KeyError level)
       end ;;
  let profile := {| profile_consistency_level := v |} in
  let cluster_r :=
    if contains ["ANY"; "EACH_QUORUM"] level
    then Build_Cluster login_host login_port auth ssl None
    else Build_Cluster login_host login_port auth ssl (Some profile) in
  let cluster_w :=
    if contains ["SERIAL"; "LOCAL_SERIAL"] level
    then Build_Cluster login_host login_port auth ssl None
    else Build_Cluster login_host login_port auth ssl (Some profile) in
  Ok (cluster_r, cluster_w).

(* ================================================================= *)
(** ** The module's support functions *)

Section Driver.

(** The state of the database server. *)
Context {server : Type}.
(** [session_r.execute(cql)] for the catalogue queries: the rows, as the
    text of their only column. *)
Variable read_execute : server -> string -> exn + list string.
(** [cluster.metadata.keyspaces[name].export_as_string()], when the
    metadata knows the keyspace. *)
Variable export_as_string : server -> string -> option string.
(** [session_w.execute(cql)]: the server afterwards, and what the driver
    raises, if anything. *)
Variable write_execute : server -> string -> server * option exn.
(** [eval] on the replication map literal.  A result that is not a
    dictionary makes the assignment on the next line raise: both are
    exceptions of [get_keyspace_config]. *)
Variable py_eval : string -> exn + dict.

(** What an invocation acts on: the server, and the statements handed to
    the write session so far. *)
Record world : Type := {
  srv : server;
  submitted : list string
}.

Definition M (A : Type) : Type := world -> res A * world.

Definition ret {A} (a : A) : M A := fun st => (Ok a, st).

Definition mbind {A B} (m : M A) (k : A -> M B) : M B :=
  fun st =>
    match m st with
    | (Ok a, st') => k a st'
    | (Raise e, st') => (Raise e, st')
    | (SystemExit x, st') => (SystemExit x, st')
    end.

(** A call that only reads the server. *)
Definition read {A} (f : server -> res A) : M A :=
  fun st => (f (srv st), st).

(** [session_w.execute(cql)]. *)
Definition session_w_execute (cql : string) : M unit :=
  fun st =>
    let (s', raised) := write_execute (srv st) cql in
    let st' := {| srv := s'; submitted := submitted st ++ [cql] |} in
    match raised with
    | None => (Ok tt, st')
    | Some e => (Raise e, st')
    end.

(** [try: m  except Exception as excep: h excep]. *)
Definition try_except {A} (m : M A) (h : exn -> M A) : M A :=
  fun st =>
    match m st with
    | (Raise e, st') => h e st'
    | other => other
    end.

Notation "x <<- m ;; k" := (mbind m (fun x => k))
  (at level 61, m at next level, right associativity).

Definition keyspace_exists (keyspace : string) (s : server) : res bool :=
  rows <- of_sum (read_execute s
    "SELECT release_version FROM system.local WHERE key='local'") ;;
  release_version <- match rows with
                     | r :: _ => Ok r
                     | [] => Raise (IndexError "list index out of range")
                     end ;;
  major <- match release_version with
           | String c _ =>
               int (VStr (String c EmptyString))
           | EmptyString => Raise (IndexError "string index out of range")
           end ;;
  let cql :=
    if 3 <=? major
    then "SELECT keyspace_name FROM system_schema.keyspaces"
    else "SELECT keyspace_name FROM system.schema_keyspaces" in
  keyspaces <- of_sum (read_execute s cql) ;;
  Ok (fold_left
        (fun keyspace_exists ks =>
           if String.eqb ks keyspace then true else keyspace_exists)
        keyspaces false).

Definition get_keyspace (keyspace : string) (s : server) : res string :=
  match export_as_string s keyspace with
  | Some text => Ok text
  | None => Raise (KeyError keyspace)
  end.

(** Lines 212-223 of [create_alter_keyspace]: the statement text. *)
Definition create_alter_keyspace_cql
    (keyspace : string) (replication_factor : Z) (durable_writes : bool)
    (data_centres : option dict) (is_alter : bool) : string :=
  let cql :=
    if negb is_alter
    then "CREATE KEYSPACE " ++ keyspace ++ " "
    else "ALTER KEYSPACE " ++ keyspace ++ " " in
  let cql :=
    match data_centres with
    | Some data_centres =>
        let cql :=
          cql ++ "WITH REPLICATION = { 'class' : 'NetworkTopologyStrategy', " in
        let cql :=
          fold_left
            (fun cql dc => cql ++ " '" ++ fst dc ++ "' : " ++ str (snd dc) ++ ",")
            data_centres cql in
        drop_last cql ++ " }"
    | None =>
        cql ++ "WITH REPLICATION = { 'class' : 'SimpleStrategy', 'replication_factor': "
            ++ str_of_int replication_factor ++ " }"
    end in
  cql ++ " AND DURABLE_WRITES = " ++ str_of_bool durable_writes.

Definition create_alter_keyspace
    (keyspace : string) (replication_factor : Z) (durable_writes : bool)
    (data_centres : option dict) (is_alter : bool) : M string :=
  let cql :=
    create_alter_keyspace_cql keyspace replication_factor durable_writes
      data_centres is_alter in
  _ <<- session_w_execute cql ;;
  ret cql.

Definition drop_keyspace (keyspace : string) : M bool :=
  let cql := "DROP KEYSPACE " ++ keyspace in
  _ <<- session_w_execute cql ;;
  ret true.

Definition get_keyspace_config (keyspace : string) (s : server) : res dict :=
  cql <- get_keyspace keyspace s ;;
  repl_settings <- match search_dict cql with
                   | Some m => Ok m
                   | None => Raise none_has_no_group
                   end ;;
  let dw :=
    match search_durable_writes cql with
    | Some m => m
    | None => "true"
    end in
  keyspace_config <- of_sum (py_eval repl_settings) ;;
  Ok (setitem keyspace_config "durable_writes" (VBool (bool_of_str (lower dw)))).

(** The first loop of the NetworkTopologyStrategy branch: every desired
    data centre against the live configuration. *)
Fixpoint check_each_dc (cfg : dict) (data_centres : dict) (changed : bool)
    : res bool :=
  match data_centres with
  | [] => Ok changed
  | (dc, factor) :: rest =>
      if contains (keys cfg) dc then
        wanted <- int factor ;;
        live_v <- getitem cfg dc ;;
        live <- int live_v ;;
        check_each_dc cfg rest (if negb (wanted =? live) then true else changed)
      else check_each_dc cfg rest true
  end.

(** The second loop: a live data centre the desired mapping lacks. *)
Definition check_removed_dc (cfg : dict) (data_centres : dict) (changed : bool)
    : bool :=
  fold_left
    (fun changed dc =>
       if (negb (contains (keys data_centres) dc)
           && negb (contains ["class"; "durable_writes"] dc))%bool
       then true else changed)
    (keys cfg) changed.

Definition keyspace_is_changed
    (keyspace : string) (replication_factor : Z) (durable_writes : bool)
    (data_centres : option dict) (s : server) : res bool :=
  cfg <- get_keyspace_config keyspace s ;;
  class <- getitem cfg "class" ;;
  if value_eqb class (VStr "SimpleStrategy") then
    rf_v <- getitem cfg "replication_factor" ;;
    rf <- int rf_v ;;
    if negb (rf =? replication_factor) then Ok true
    else
      dw <- getitem cfg "durable_writes" ;;
      Ok (negb (value_eqb dw (VBool durable_writes)))
  else if value_eqb class (VStr "NetworkTopologyStrategy") then
    dw <- getitem cfg "durable_writes" ;;
    if negb (value_eqb dw (VBool durable_writes)) then Ok true
    else
      match data_centres with
      | None => Raise none_not_iterable
      | Some data_centres =>
          changed <- check_each_dc cfg data_centres false ;;
          if negb changed
          then Ok (check_removed_dc cfg data_centres changed)
          else Ok changed
      end
  else
    (* the message is passed by position; the framework takes it as [msg] *)
    SystemExit (fail_json ("Unknown Replication strategy: " ++ str class)).

(* ================================================================= *)
(** ** The invocation *)

(** [module.params] and [module.check_mode], after the framework has
    validated them against [argument_spec]. *)
Record params : Type := {
login_user : option string;
login_password : option string;
ssl : bool;
ssl_cert_reqs : string;
ssl_ca_certs : string;
login_host : option (list string);
login_port : Z;
name : string;
state : string;
replication_factor : Z;
durable_writes : bool;
data_centres : option dict;
consistency_level : string;
check_mode : bool
}.

(** The machine the module runs on, and the way to the cluster. *)
Record host : Type := {
HAS_CASSANDRA_DRIVER : bool;
HAS_SSL_LIBRARY : bool;
(** [s.connect_ex(('127.0.0.1', login_port))] *)
connect_ex : Z -> Z;
getfqdn : string;
(** [os.path.exists] *)
path_exists : string -> bool;
(** [ssl_context.load_verify_locations(path)]: what it raises, if anything *)
load_verify_locations : string -> option exn;
(** [cluster.connect()]: what it raises, if anything *)
connect : Cluster -> option exn
}.

(** An invocation ends in [exit_json] or [fail_json], or in the traceback
    of an exception nothing catches. *)
Inductive outcome : Type :=
| Exited (x : exit)
| Traceback (e : exn).

Definition raise_if {A} (raised : option exn) (a : A) : res A :=
match raised with
| Some e => Raise e
| None => Ok a
end.

Definition set_changed (r : result_dict) (b : bool) : result_dict :=
{| changed := b; keyspace := keyspace r; cql := cql r |}.

Definition set_cql (r : result_dict) (text : string) : result_dict :=
{| changed := changed r; keyspace := keyspace r; cql := Some text |}.

(** Lines 394-415: the body of the first [try]. *)
Definition open_sessions (h : host) (p : params) (login_host : list string)
  : res (Cluster * Cluster) :=
let auth_provider :=
  match login_user p with
  | Some user => Some {| username := user; password := login_password p |}
  | None => None
  end in
ssl_context <-
  (if ssl p then
     let ctx := {| verify_mode := ssl_cert_reqs p; verify_locations := None |} in
     if contains ["CERT_REQUIRED"; "CERT_OPTIONAL"] (ssl_cert_reqs p) then
       raise_if (load_verify_locations h (ssl_ca_certs p))
         (Some {| verify_mode := ssl_cert_reqs p;
                  verify_locations := Some (ssl_ca_certs p) |})
     else Ok (Some ctx)
   else Ok None) ;;
sessions <- get_read_and_write_sessions login_host (login_port p)
              auth_provider ssl_context (consistency_level p) ;;
_ <- raise_if (connect h (fst sessions)) tt ;;
_ <- raise_if (connect h (snd sessions)) tt ;;
Ok sessions.

(** Lines 423-479: the branches of the second [try], up to [exit_json]. *)
Definition reconcile (p : params) (result : result_dict) : M result_dict :=
let keyspace := name p in
let state := state p in
found <<- read (keyspace_exists keyspace) ;;
if found : bool then
  if check_mode p then
    if String.eqb state "present" then
      is_changed <<- read (keyspace_is_changed keyspace (replication_factor p)
                             (durable_writes p) (data_centres p)) ;;
      if is_changed : bool then ret (set_changed result true)
      else ret (set_changed result false)
    else if String.eqb state "absent" then ret (set_changed result true)
    else ret result
  else
    if String.eqb state "present" then
      is_changed <<- read (keyspace_is_changed keyspace (replication_factor p)
                             (durable_writes p) (data_centres p)) ;;
      if is_changed : bool then
        cql <<- create_alter_keyspace keyspace (replication_factor p)
                  (durable_writes p) (data_centres p) true ;;
        ret (set_cql (set_changed result true) cql)
      else ret (set_changed result false)
    else if String.eqb state "absent" then
      _ <<- drop_keyspace keyspace ;;
      ret (set_changed result true)
    else ret result
else
  if check_mode p then
    let result :=
      if String.eqb state "present" then set_changed result true else result in
    let result :=
      if String.eqb state "absent" then set_changed result false else result in
    ret result
  else
    if String.eqb state "present" then
      cql <<- create_alter_keyspace keyspace (replication_factor p)
                (durable_writes p) (data_centres p) false ;;
      ret (set_cql (set_changed result true) cql)
    else if String.eqb state "absent" then ret (set_changed result false)
    else ret result.

Definition exit_with {A} (x : exit) : M A := fun st => (SystemExit x, st).

(** Lines 313-420: from the construction of the framework object to the
    two open sessions.  Every failure on the way leaves through
    [fail_json], except the one nothing catches. *)
Definition establish (h : host) (p : params) : res (Cluster * Cluster) :=
(* the construction of [AnsibleModule] reads [ConsistencyLevel] *)
_ <- (if HAS_CASSANDRA_DRIVER h then Ok tt
      else Raise (NameError "ConsistencyLevel")) ;;
_ <- (if negb (HAS_CASSANDRA_DRIVER h) then
        SystemExit (fail_json
          "This module requires the cassandra-driver python driver. You can probably install it with pip install cassandra-driver.")
      else Ok tt) ;;
let login_host :=
  match login_host p with
  | Some hosts => hosts
  | None =>
      if connect_ex h (login_port p) =? 0 then ["127.0.0.1"] else [getfqdn h]
  end in
_ <- (if (negb (HAS_SSL_LIBRARY h) && ssl p)%bool then
        SystemExit (fail_json
          "This module requires the SSL python library. You can probably install it with pip install ssl.")
      else Ok tt) ;;
_ <- (if (contains ["CERT_REQUIRED"; "CERT_OPTIONAL"] (ssl_cert_reqs p)
          && String.eqb (ssl_ca_certs p) "")%bool then
        SystemExit (fail_json
          "When verify mode is set to CERT_REQUIRED or CERT_OPTIONALssl_ca_certs is also required to be set and not empty")
      else Ok tt) ;;
_ <- (if (contains ["CERT_REQUIRED"; "CERT_OPTIONAL"] (ssl_cert_reqs p)
          && negb (path_exists h (ssl_ca_certs p)))%bool then
        SystemExit (fail_json "ssl_ca_certs certificate: File not found")
      else Ok tt) ;;
match open_sessions h p login_host with
| Raise (AuthenticationFailed msg) =>
    SystemExit (fail_json
      ("Authentication failed: " ++ exn_str (AuthenticationFailed msg)))
| Raise excep =>
    SystemExit (fail_json ("Error connecting to cluster: " ++ exn_str excep))
| other => other
end.

(** Lines 422-484: the second [try] with its handler. *)
Definition apply_state (p : params) : M Empty_set :=
let result := {| changed := false; keyspace := name p; cql := None |} in
try_except
  (result <<- reconcile p result ;;
   exit_with (exit_json result))
  (fun excep => exit_with (fail_json ("An error occured: " ++ exn_str excep))).

Definition leave (r : res Empty_set * world) : outcome * world :=
match r with
| (SystemExit x, st) => (Exited x, st)
| (Raise e, st) => (Traceback e, st)
| (Ok nothing, _) => match nothing with end
end.

(** [main()]: how the invocation ends, and the state it leaves. *)
Definition main (h : host) (p : params) (st : world) : outcome * world :=
match establish h p with
| Ok _ => leave (apply_state p st)
| Raise e => (Traceback e, st)
| SystemExit x => (Exited x, st)
end.

End Driver.

Arguments world : clear implicits.
Arguments M : clear implicits.

(* ================================================================= *)
(** ** A sample cluster, to run the module on *)

Module Sample.

(** *** Dictionary displays

    The evaluator on the displays the driver exports: single-quoted keys
    without escapes, values that are such texts or decimal numbers.  Any
    other text is refused. *)

Inductive token : Type :=
| TLbrace | TRbrace | TColon | TComma
| TText (s : string)
| TNumber (n : Z).

Inductive mode : Type :=
| Idle
| InText (acc : string)
| InNumber (n : Z).

Definition step_idle (c : ascii) : option (list token * mode) :=
if (Ascii.eqb c " " || Ascii.eqb c (ascii_of_nat 9))%bool then Some ([], Idle)
else if Ascii.eqb c "{" then Some ([TLbrace], Idle)
else if Ascii.eqb c "}" then Some ([TRbrace], Idle)
else if Ascii.eqb c ":" then Some ([TColon], Idle)
else if Ascii.eqb c "," then Some ([TComma], Idle)
else if Ascii.eqb c "'" then Some ([], InText EmptyString)
else if is_digit c then Some ([], InNumber (digit_val c))
else None.

Definition step (m : mode) (c : ascii) : option (list token * mode) :=
match m with
| Idle => step_idle c
| InText acc =>
    if Ascii.eqb c "'" then Some ([TText acc], Idle)
    else if (Ascii.eqb c "\" || Ascii.eqb c newline)%bool then None
    else Some ([], InText (acc ++ String c EmptyString))
| InNumber n =>
    if is_digit c then
      if n =? 0 then None else Some ([], InNumber (10 * n + digit_val c))
    else
      match step_idle c with
      | Some (ts, m') => Some (TNumber n :: ts, m')
      | None => None
      end
end.

Fixpoint lex (m : mode) (s : string) : option (list token) :=
match s with
| EmptyString =>
    match m with
    | Idle => Some []
    | InText _ => None
    | InNumber n => Some [TNumber n]
    end
| String c r =>
    match step m c with
    | Some (ts, m') => option_map (app ts) (lex m' r)
    | None => None
    end
end.

Definition value_of (t : token) : option value :=
match t with
| TText s => Some (VStr s)
| TNumber n => Some (VInt n)
| _ => None
end.

Fixpoint entries (ts : list token) (d : dict) : option dict :=
match ts with
| [TRbrace] => Some d
| TText k :: TColon :: v :: rest =>
    match value_of v with
    | Some x =>
        match rest with
        | [TRbrace] => Some (setitem d k x)
        | TComma :: rest' => entries rest' (setitem d k x)
        | _ => None
        end
    | None => None
    end
| _ => None
end.

Definition eval (text : string) : exn + dict :=
match lex Idle text with
| Some (TLbrace :: ts) =>
    match entries ts [] with
    | Some d => inr d
    | None => inl (EvalError "invalid syntax")
    end
| _ => inl (EvalError "invalid syntax")
end.

(** *** The server

    A release 3 server: its keyspaces by name, each with the text its
    metadata exports. *)

Record cluster : Type := {
release_version : string;
exported : list (string * string)
}.

Definition select (c : cluster) (cql : string) : exn + list string :=
if String.eqb cql "SELECT release_version FROM system.local WHERE key='local'"
then inr [release_version c]
else if String.eqb cql "SELECT keyspace_name FROM system_schema.keyspaces"
then inr (map fst (exported c))
else inl (DriverError "unconfigured table").

Definition export (c : cluster) (keyspace : string) : option string :=
lookup (exported c) keyspace.

Definition after (keyword cql : string) : string :=
substring (String.length keyword) (String.length cql - String.length keyword) cql.

Fixpoint first_word (s : string) : string :=
match s with
| EmptyString => EmptyString
| String c r => if Ascii.eqb c " " then EmptyString else String c (first_word r)
end.

Definition without (keyspace : string) (l : list (string * string))
  : list (string * string) :=
filter (fun e => negb (String.eqb (fst e) keyspace)) l.

(** DROP removes the keyspace; CREATE and ALTER make the statement the
    text the keyspace exports. *)
Definition execute (c : cluster) (cql : string) : cluster * option exn :=
if String.prefix "DROP KEYSPACE " cql then
  ({| release_version := release_version c;
      exported := without (after "DROP KEYSPACE " cql) (exported c) |}, None)
else if String.prefix "CREATE KEYSPACE " cql then
  let keyspace := first_word (after "CREATE KEYSPACE " cql) in
  ({| release_version := release_version c;
      exported := without keyspace (exported c) ++ [(keyspace, cql ++ ";")] |}, None)
else if String.prefix "ALTER KEYSPACE " cql then
  let keyspace := first_word (after "ALTER KEYSPACE " cql) in
  ({| release_version := release_version c;
      exported := without keyspace (exported c) ++ [(keyspace, cql ++ ";")] |}, None)
else (c, Some (DriverError "statement not supported")).

Definition machine : host := {|
HAS_CASSANDRA_DRIVER := true;
HAS_SSL_LIBRARY := true;
connect_ex := fun _ => 0;
getfqdn := "localhost";
path_exists := fun _ => false;
load_verify_locations := fun _ => None;
connect := fun _ => None
|}.

Definition request (keyspace desired : string) (rf : Z) (dw : bool)
  (dcs : option dict) (check : bool) : params := {|
login_user := None;
login_password := None;
ssl := false;
ssl_cert_reqs := "CERT_NONE";
ssl_ca_certs := "";
login_host := None;
login_port := 9042;
name := keyspace;
state := desired;
replication_factor := rf;
durable_writes := dw;
data_centres := dcs;
consistency_level := "LOCAL_ONE";
check_mode := check
|}.

Definition simple_false : string :=
"CREATE KEYSPACE ks WITH REPLICATION = {'class': 'SimpleStrategy', 'replication_factor': '1'} AND DURABLE_WRITES = False;".

Definition simple_false_driver : string :=
"CREATE KEYSPACE ks WITH replication = {'class': 'SimpleStrategy', 'replication_factor': '1'}  AND durable_writes = false;".

Definition start (text : string) : world cluster :=
{| srv := {| release_version := "3.11.4"; exported := [("ks", text)] |};
   submitted := [] |}.

Definition local_strategy : string :=
"CREATE KEYSPACE ks WITH replication = {'class': 'LocalStrategy'}  AND durable_writes = true;".

Definition network_london : string :=
"CREATE KEYSPACE ks WITH replication = {'class': 'NetworkTopologyStrategy', 'london': '3'}  AND durable_writes = true;".

(** The two handles [machine] opens for [request]. *)
Definition sessions : Cluster * Cluster :=
let handle := {|
  contact_points := ["127.0.0.1"];
  port := 9042;
  auth_provider := None;
  ssl_context := None;
  execution_profiles := Some {| profile_consistency_level := 10 |}
|} in (handle, handle).

Definition run := main select export execute eval machine.



(** A server whose release text is not a version number. *)
Definition unreleased : world cluster :=
{| srv := {| release_version := "beta"; exported := [] |}; submitted := [] |}.

(** A write session whose every statement times out. *)
Definition refuse (c : cluster) (cql : string) : cluster * option exn :=
(c, Some (DriverError "timed out")).

Definition simple_three : string :=
"CREATE KEYSPACE ks WITH replication = {'class': 'SimpleStrategy', 'replication_factor': '3'}  AND durable_writes = true;".

Definition network_two : string :=
"CREATE KEYSPACE ks WITH replication = {'class': 'NetworkTopologyStrategy', 'london': '3', 'paris': '3'}  AND durable_writes = true;".

Definition no_class : string :=
"CREATE KEYSPACE ks WITH replication = {'replication_factor': '3'}  AND durable_writes = true;".

End Sample.


(* ================================================================= *)
(** ** What the properties speak about *)

(** One replication entry, as the builder writes it. *)
Definition dc_pair (dc : string * value) : string :=
"'" ++ fst dc ++ "' : " ++ str (snd dc).

Definition keyword (is_alter : bool) : string :=
if is_alter then "ALTER KEYSPACE " else "CREATE KEYSPACE ".

(** The NetworkTopologyStrategy statement the specification describes: the
    class, then one pair per data centre, then the durable-writes flag. *)
Definition network_topology_statement
    (keyspace : string) (durable_writes : bool) (data_centres : dict)
    (is_alter : bool) : string :=
keyword is_alter ++ keyspace
  ++ " WITH REPLICATION = { 'class' : 'NetworkTopologyStrategy', "
  ++ " " ++ String.concat ", " (map dc_pair data_centres)
  ++ " } AND DURABLE_WRITES = " ++ str_of_bool durable_writes.

(** The SimpleStrategy statement the specification describes. *)
Definition simple_statement
    (keyspace : string) (replication_factor : Z) (durable_writes : bool)
    (is_alter : bool) : string :=
keyword is_alter ++ keyspace
  ++ " WITH REPLICATION = { 'class' : 'SimpleStrategy', 'replication_factor': "
  ++ str_of_int replication_factor
  ++ " } AND DURABLE_WRITES = " ++ str_of_bool durable_writes.

(** One entry as the loop appends it, and the loop's output. *)
Definition dc_entry (dc : string * value) : string := " " ++ dc_pair dc ++ ",".

Fixpoint flat (l : list string) : string :=
match l with
| [] => ""
| x :: r => x ++ flat r
end.

(** The [changed] an invocation reports, when it ends in [exit_json]. *)
Definition reported_changed (o : outcome) : option bool :=
match o with
| Exited (exit_json r) => Some (changed r)
| _ => None
end.

(** A call that does not leave through [exit_json] or [fail_json]. *)
Definition no_exit {A} (r : res A) : Prop := forall x, r <> SystemExit x.

(** The same request, in or out of check mode. *)
Definition with_check_mode (p : params) (b : bool) : params := {|
login_user := login_user p;
login_password := login_password p;
ssl := ssl p;
ssl_cert_reqs := ssl_cert_reqs p;
ssl_ca_certs := ssl_ca_certs p;
login_host := login_host p;
login_port := login_port p;
name := name p;
state := state p;
replication_factor := replication_factor p;
durable_writes := durable_writes p;
data_centres := data_centres p;
consistency_level := consistency_level p;
check_mode := b
|}.

(** The contact points an invocation uses: the given hosts, or the local
    address when the probe of it answers, or the machine's own name. *)
Definition effective_hosts (h : host) (p : params) : list string :=
match login_host p with
| Some hosts => hosts
| None => if connect_ex h (login_port p) =? 0 then ["127.0.0.1"] else [getfqdn h]
end.

(** The credentials an invocation presents: none without a user name. *)
Definition credentials (p : params) : option PlainTextAuthProvider :=
match login_user p with
| Some user => Some {| username := user; password := login_password p |}
| None => None
end.

(** The verification modes that need a CA bundle. *)
Definition needs_ca (p : params) : bool :=
contains ["CERT_REQUIRED"; "CERT_OPTIONAL"] (ssl_cert_reqs p).

(** The TLS context an invocation builds: none unless [ssl] is set; the CA
    bundle is loaded for the modes that need one. *)
Definition tls_context (p : params) : option SSLContext :=
if ssl p then
  Some {| verify_mode := ssl_cert_reqs p;
          verify_locations :=
            if needs_ca p then Some (ssl_ca_certs p) else None |}
else None.

(** The CA bundle, when one is to be loaded, loads. *)
Definition tls_loads (h : host) (p : params) : Prop :=
ssl p = true -> needs_ca p = true ->
load_verify_locations h (ssl_ca_certs p) = None.

(** The checks made before anything is opened pass. *)
Definition settings_ok (h : host) (p : params) : bool :=
(HAS_CASSANDRA_DRIVER h
 && negb (negb (HAS_SSL_LIBRARY h) && ssl p)
 && negb (needs_ca p && String.eqb (ssl_ca_certs p) "")
 && negb (needs_ca p && negb (path_exists h (ssl_ca_certs p))))%bool.

(** The message of the first [try]'s handlers. *)
Definition connection_failure (e : exn) : string :=
match e with
| AuthenticationFailed _ => "Authentication failed: " ++ exn_str e
| _ => "Error connecting to cluster: " ++ exn_str e
end.

(** The two catalogue queries of [keyspace_exists]. *)
Definition version_query : string :=
"SELECT release_version FROM system.local WHERE key='local'".

Definition keyspaces_query (major : Z) : string :=
if 3 <=? major
then "SELECT keyspace_name FROM system_schema.keyspaces"
else "SELECT keyspace_name FROM system.schema_keyspaces".

(** [m] occurs in [s]. *)
Definition occurs_in (m s : string) : Prop := exists a b, s = a ++ m ++ b.

Fixpoint has_char (c : ascii) (s : string) : bool :=
match s with
| EmptyString => false
| String x r => (Ascii.eqb x c || has_char c r)%bool
end.

Fixpoint last_char (s : string) : option ascii :=
match s with
| EmptyString => None
| String c EmptyString => Some c
| String _ r => last_char r
end.

(** The factors of a desired data centre and of its live entry can both be
    read as numbers, when the live configuration has the entry. *)
Definition dc_readable (cfg : dict) (dc : string * value) : Prop :=
get cfg (fst dc) = None
\/ exists live n m,
     get cfg (fst dc) = Some live /\ int (snd dc) = Ok n /\ int live = Ok m.

(** A desired data centre the live configuration lacks, or has with another
    factor. *)
Definition dc_differs (cfg : dict) (dc : string * value) : Prop :=
get cfg (fst dc) = None
\/ exists live n m,
     get cfg (fst dc) = Some live /\ int (snd dc) = Ok n /\ int live = Ok m
     /\ n <> m.

(** A live data centre the desired mapping lacks. *)
Definition dc_removed (cfg dcs : dict) (k : string) : Prop :=
In k (keys cfg) /\ ~ In k (keys dcs) /\ k <> "class" /\ k <> "durable_writes".

(* ================================================================= *)
(** ** Text lemmas *)

Lemma append_assoc (a b c : string) : (a ++ b) ++ c = a ++ (b ++ c).
Proof.
induction a as [|x a IH]; simpl; [reflexivity | now rewrite IH].
Qed.

Lemma append_nil_r (a : string) : a ++ "" = a.
Proof.
induction a as [|x a IH]; simpl; [reflexivity | now rewrite IH].
Qed.

Ltac text_norm :=
  repeat first [ rewrite !append_assoc | progress (cbn [append]) ].

Lemma drop_last_snoc (a : string) (c : ascii) :
  drop_last (a ++ String c "") = a.
Proof.
induction a as [|x a IH]; [reflexivity|].
change (String x a ++ String c "") with (String x (a ++ String c "")).
destruct a as [|y a]; [reflexivity|].
change (String y a ++ String c "") with (String y (a ++ String c "")) in *.
cbn [drop_last]. cbn [drop_last] in IH. now rewrite IH.
Qed.

Lemma append_inv_head (a b c : string) : a ++ b = a ++ c -> b = c.
Proof.
induction a as [|x a IH]; cbn [append]; intro H; [exact H|].
injection H as H. now apply IH.
Qed.

Lemma bool_of_str_lower (s : string) : bool_of_str (lower s) = bool_of_str s.
Proof. destruct s; reflexivity. Qed.

Lemma concat_cons2 (sep x y : string) (l : list string) :
  String.concat sep (x :: y :: l) = x ++ sep ++ String.concat sep (y :: l).
Proof. reflexivity. Qed.

(* ================================================================= *)
(** ** The statement builder *)

Lemma keyword_head (keyspace : string) (is_alter : bool) :
  (if negb is_alter
   then "CREATE KEYSPACE " ++ keyspace ++ " "
   else "ALTER KEYSPACE " ++ keyspace ++ " ")
  = keyword is_alter ++ keyspace ++ " ".
Proof. destruct is_alter; reflexivity. Qed.

Lemma entry_text (dc : string * value) :
  " '" ++ fst dc ++ "' : " ++ str (snd dc) ++ "," = dc_entry dc.
Proof. unfold dc_entry, dc_pair. text_norm. reflexivity. Qed.

Lemma pairs_fold (dcs : dict) (acc : string) :
  fold_left
    (fun cql dc => cql ++ " '" ++ fst dc ++ "' : " ++ str (snd dc) ++ ",")
    dcs acc
  = acc ++ flat (map dc_entry dcs).
Proof.
revert acc. induction dcs as [|dc dcs IH]; intro acc.
- cbn. now rewrite append_nil_r.
- cbn [fold_left map flat]. rewrite IH, entry_text.
  now rewrite append_assoc.
Qed.

Lemma pairs_trailing_comma (dc : string * value) (dcs : dict) :
  flat (map dc_entry (dc :: dcs))
  = (" " ++ String.concat ", " (map dc_pair (dc :: dcs))) ++ ",".
Proof.
revert dc. induction dcs as [|dc' dcs IH]; intro dc.
- cbn [map flat String.concat]. unfold dc_entry.
  rewrite append_nil_r. text_norm. reflexivity.
- change (flat (map dc_entry (dc :: dc' :: dcs)))
    with (dc_entry dc ++ flat (map dc_entry (dc' :: dcs))).
  rewrite IH.
  change (map dc_pair (dc :: dc' :: dcs))
    with (dc_pair dc :: dc_pair dc' :: map dc_pair dcs).
  rewrite concat_cons2.
  change (dc_pair dc' :: map dc_pair dcs) with (map dc_pair (dc' :: dcs)).
  unfold dc_entry. text_norm. reflexivity.
Qed.

(** Without a data-centre mapping the builder writes the SimpleStrategy
    statement with the replication factor and nothing else. *)
Lemma create_alter_keyspace_cql_simple
    (keyspace : string) (rf : Z) (dw is_alter : bool) :
  create_alter_keyspace_cql keyspace rf dw None is_alter
  = simple_statement keyspace rf dw is_alter.
Proof.
unfold create_alter_keyspace_cql, simple_statement.
rewrite keyword_head. text_norm. reflexivity.
Qed.

Lemma create_alter_keyspace_cql_network
    (keyspace : string) (rf : Z) (dw is_alter : bool) (dcs : dict) :
  dcs <> [] ->
  create_alter_keyspace_cql keyspace rf dw (Some dcs) is_alter
  = network_topology_statement keyspace dw dcs is_alter.
Proof.
intro Hne. destruct dcs as [|dc dcs]; [congruence|].
unfold create_alter_keyspace_cql, network_topology_statement.
rewrite keyword_head, pairs_fold, pairs_trailing_comma.
rewrite <- !append_assoc. rewrite drop_last_snoc.
text_norm. reflexivity.
Qed.

(** With the empty data-centre mapping the builder does not write the
    SimpleStrategy statement: it writes a NetworkTopologyStrategy map with
    no data centre, the comma before the closing brace left in place, and
    the replication factor nowhere. *)
Lemma create_alter_keyspace_cql_empty_mapping
    (keyspace : string) (rf : Z) (dw is_alter : bool) :
  create_alter_keyspace_cql keyspace rf dw (Some []) is_alter
  = keyword is_alter ++ keyspace
      ++ " WITH REPLICATION = { 'class' : 'NetworkTopologyStrategy', }"
      ++ " AND DURABLE_WRITES = " ++ str_of_bool dw
  /\ create_alter_keyspace_cql keyspace rf dw (Some []) is_alter
     <> simple_statement keyspace rf dw is_alter.
Proof.
assert (E : create_alter_keyspace_cql keyspace rf dw (Some []) is_alter
  = keyword is_alter ++ keyspace
      ++ " WITH REPLICATION = { 'class' : 'NetworkTopologyStrategy', }"
      ++ " AND DURABLE_WRITES = " ++ str_of_bool dw).
{ unfold create_alter_keyspace_cql. rewrite keyword_head. cbn [fold_left].
  replace ((keyword is_alter ++ keyspace ++ " ")
           ++ "WITH REPLICATION = { 'class' : 'NetworkTopologyStrategy', ")
    with ((keyword is_alter ++ keyspace
           ++ " WITH REPLICATION = { 'class' : 'NetworkTopologyStrategy',")
          ++ String " " "")
    by (text_norm; reflexivity).
  rewrite drop_last_snoc. text_norm. reflexivity. }
split; [exact E|].
rewrite E. unfold simple_statement. intro H.
apply append_inv_head in H. apply append_inv_head in H.
discriminate H.
Qed.

(* ================================================================= *)
(** ** Dictionaries and the two searches *)

Lemma get_setitem_same (d : dict) (k : string) (v : value) :
  get (setitem d k v) k = Some v.
Proof.
induction d as [|[k' v'] d IH]; cbn [setitem get].
- now rewrite String.eqb_refl.
- destruct (String.eqb k k') eqn:E; cbn [get]; rewrite E; [reflexivity | exact IH].
Qed.

Lemma durable_writes_at_nonempty (s m : string) :
  durable_writes_at s = Some m -> bool_of_str m = true.
Proof.
unfold durable_writes_at.
destruct (String.prefix _ s); [intro H; injection H as <-; reflexivity|].
destruct (String.prefix _ s); [intro H; injection H as <-; reflexivity|].
discriminate.
Qed.

Lemma search_durable_writes_nonempty (s m : string) :
  search_durable_writes s = Some m -> bool_of_str m = true.
Proof.
induction s as [|c s IH]; cbn [search_durable_writes].
- destruct (durable_writes_at "") eqn:E; [|discriminate].
  intro H. injection H as <-. eapply durable_writes_at_nonempty; eassumption.
- destruct (durable_writes_at (String c s)) eqn:E; [|exact IH].
  intro H. injection H as <-. eapply durable_writes_at_nonempty; eassumption.
Qed.

Lemma value_eqb_str (v : value) (s : string) :
  value_eqb v (VStr s) = true <-> v = VStr s.
Proof.
destruct v as [n|t|b]; cbn [value_eqb]; split; try discriminate.
- intro H. apply String.eqb_eq in H. now subst.
- intro H. injection H as ->. apply String.eqb_refl.
Qed.

Lemma value_eqb_str_false (v : value) (s : string) :
  v <> VStr s -> value_eqb v (VStr s) = false.
Proof.
intro H. destruct (value_eqb v (VStr s)) eqn:E; [|reflexivity].
apply value_eqb_str in E. contradiction.
Qed.

Lemma get_some_contains (d : dict) (k : string) (v : value) :
  get d k = Some v -> contains (keys d) k = true.
Proof.
unfold contains, keys.
induction d as [|[k' v'] d IH]; cbn [get map existsb fst]; [discriminate|].
destruct (String.eqb k k'); [reflexivity | exact IH].
Qed.

Lemma contains_in (xs : list string) (k : string) :
  contains xs k = true <-> In k xs.
Proof.
unfold contains. rewrite existsb_exists. split.
- intros (x & Hin & Heq). apply String.eqb_eq in Heq. now subst.
- intro Hin. exists k. split; [exact Hin | apply String.eqb_refl].
Qed.

(** *** Calls that never leave through [SystemExit] *)

Lemma bind_no_exit {A B} (m : res A) (k : A -> res B) :
  no_exit m -> (forall a, no_exit (k a)) -> no_exit (bind m k).
Proof.
intros Hm Hk x. destruct m as [a|e|y]; cbn [bind].
- apply Hk.
- discriminate.
- exfalso. now apply (Hm y).
Qed.

Lemma ok_no_exit {A} (a : A) : no_exit (Ok a).
Proof. intros x; discriminate. Qed.

Lemma raise_no_exit {A} (e : exn) : no_exit (@Raise A e).
Proof. intros x; discriminate. Qed.

Lemma of_sum_no_exit {A} (m : exn + A) : no_exit (of_sum m).
Proof. destruct m; intros x; discriminate. Qed.

Lemma int_no_exit (v : value) : no_exit (int v).
Proof.
destruct v as [n|s|b]; cbn [int]; try apply ok_no_exit.
destruct (int_of_str s); [apply ok_no_exit | apply raise_no_exit].
Qed.

Lemma getitem_no_exit (d : dict) (k : string) : no_exit (getitem d k).
Proof.
unfold getitem. destruct (get d k); [apply ok_no_exit | apply raise_no_exit].
Qed.

(* ================================================================= *)
(** ** Connection handles *)

(** C7: for every level of the driver's table both handles are built; the
    read handle carries the requested level unless the level is ANY or
    EACH_QUORUM, the write handle unless it is SERIAL or LOCAL_SERIAL, and a
    handle that does not carry it is built without a profile, which is the
    cluster default.  Nothing else differs between the handles. *)
Theorem get_read_and_write_sessions_fallback
    (hosts : list string) (port_ : Z) (auth : option PlainTextAuthProvider)
    (ctx : option SSLContext) (level : string) (v : Z) :
  lookup name_to_value level = Some v ->
  exists cluster_r cluster_w,
    get_read_and_write_sessions hosts port_ auth ctx level
      = Ok (cluster_r, cluster_w)
    /\ cluster_r = Build_Cluster hosts port_ auth ctx (execution_profiles cluster_r)
    /\ cluster_w = Build_Cluster hosts port_ auth ctx (execution_profiles cluster_w)
    /\ (level = "ANY" \/ level = "EACH_QUORUM" ->
        execution_profiles cluster_r = None)
    /\ (level <> "ANY" -> level <> "EACH_QUORUM" ->
        execution_profiles cluster_r = Some {| profile_consistency_level := v |})
    /\ (level = "SERIAL" \/ level = "LOCAL_SERIAL" ->
        execution_profiles cluster_w = None)
    /\ (level <> "SERIAL" -> level <> "LOCAL_SERIAL" ->
        execution_profiles cluster_w = Some {| profile_consistency_level := v |}).
Proof.
intro Hv. unfold get_read_and_write_sessions. rewrite Hv. cbn [bind].
eexists. eexists. split; [reflexivity|].
unfold contains. cbn [existsb].
destruct (String.eqb_spec level "ANY") as [E1|N1];
destruct (String.eqb_spec level "EACH_QUORUM") as [E2|N2];
destruct (String.eqb_spec level "SERIAL") as [E3|N3];
destruct (String.eqb_spec level "LOCAL_SERIAL") as [E4|N4];
cbn [orb execution_profiles];
repeat split; try reflexivity; try congruence; intuition congruence.
Qed.

(* ================================================================= *)
(** ** Fetch, diff and the invocation *)

Section Properties.

Context {server : Type}.
Variable read_execute : server -> string -> exn + list string.
Variable export_as_string : server -> string -> option string.
Variable write_execute : server -> string -> server * option exn.
Variable py_eval : string -> exn + dict.

Local Abbreviation exists_ := (keyspace_exists read_execute).
Local Abbreviation config := (get_keyspace_config export_as_string py_eval).
Local Abbreviation is_changed := (keyspace_is_changed export_as_string py_eval).
Local Abbreviation create_alter := (create_alter_keyspace write_execute).
Local Abbreviation run_main :=
  (main read_execute export_as_string write_execute py_eval).

(** Whatever the exported text says, the fetched configuration has durable
    writes on. *)
Lemma get_keyspace_config_durable_writes
    (keyspace : string) (s : server) (cfg : dict) :
  config keyspace s = Ok cfg ->
  get cfg "durable_writes" = Some (VBool true).
Proof.
unfold get_keyspace_config, get_keyspace.
destruct (export_as_string s keyspace) as [text|]; [|discriminate].
cbn [bind]. destruct (search_dict text) as [m|]; [|discriminate].
cbn [bind]. destruct (py_eval m) as [e|d]; [discriminate|].
cbn [of_sum bind]. intro H. injection H as <-.
rewrite get_setitem_same. do 2 f_equal.
rewrite bool_of_str_lower.
destruct (search_durable_writes text) as [dw|] eqn:E; [|reflexivity].
eapply search_durable_writes_nonempty; eassumption.
Qed.

(** C4, amended: without a data-centre mapping ([data_centres] is [None])
    the builder hands the write session the SimpleStrategy statement, whose
    replication map holds the class and ['replication_factor'] with the
    given factor and no data centre; that text is also what it returns. *)
Theorem create_alter_keyspace_without_mapping
    (keyspace : string) (rf : Z) (dw is_alter : bool) (st : world server) :
  let text := simple_statement keyspace rf dw is_alter in
  let done := create_alter keyspace rf dw None is_alter st in
  submitted (snd done) = (submitted st ++ [text])%list
  /\ (fst done = Ok text \/ exists e, fst done = Raise e).
Proof.
intros text done. subst text done.
unfold create_alter_keyspace, mbind, session_w_execute, ret.
rewrite create_alter_keyspace_cql_simple.
destruct (write_execute (srv st) _) as [s' [e|]]; cbn; split; eauto.
Qed.

(** C5: with a non-empty data-centre mapping the builder hands the write
    session the NetworkTopologyStrategy statement that has one pair per
    entry of the mapping, in the mapping's order, and then the
    durable-writes flag; that text is also what it returns. *)
Theorem create_alter_keyspace_network_topology
    (keyspace : string) (rf : Z) (dw is_alter : bool) (dcs : dict)
    (st : world server) :
  dcs <> [] ->
  let text := network_topology_statement keyspace dw dcs is_alter in
  let done := create_alter keyspace rf dw (Some dcs) is_alter st in
  submitted (snd done) = (submitted st ++ [text])%list
  /\ (fst done = Ok text \/ exists e, fst done = Raise e).
Proof.
intros Hne text done. subst text done.
unfold create_alter_keyspace, mbind, session_w_execute, ret.
rewrite (create_alter_keyspace_cql_network keyspace rf dw is_alter dcs Hne).
destruct (write_execute (srv st) _) as [s' [e|]]; cbn; split; eauto.
Qed.

(** *** The diff *)

Lemma keyspace_is_changed_unknown
    (keyspace : string) (rf : Z) (dw : bool) (dcs : option dict) (s : server)
    (cfg : dict) (class : value) :
  config keyspace s = Ok cfg ->
  get cfg "class" = Some class ->
  class <> VStr "SimpleStrategy" ->
  class <> VStr "NetworkTopologyStrategy" ->
  is_changed keyspace rf dw dcs s
  = SystemExit (fail_json ("Unknown Replication strategy: " ++ str class)).
Proof.
intros Hcfg Hclass Hs Hn. unfold keyspace_is_changed, getitem.
rewrite Hcfg. cbn [bind]. rewrite Hclass. cbn [bind].
rewrite (value_eqb_str_false _ _ Hs), (value_eqb_str_false _ _ Hn).
reflexivity.
Qed.

Lemma keyspace_is_changed_none
    (keyspace : string) (rf : Z) (dw : bool) (s : server) (cfg : dict) :
  config keyspace s = Ok cfg ->
  get cfg "class" = Some (VStr "NetworkTopologyStrategy") ->
  get cfg "durable_writes" = Some (VBool dw) ->
  is_changed keyspace rf dw None s = Raise none_not_iterable.
Proof.
intros Hcfg Hclass Hdw. unfold keyspace_is_changed, getitem.
rewrite Hcfg. cbn [bind]. rewrite Hclass. cbn [bind value_eqb String.eqb].
cbn. rewrite Hdw. cbn [bind value_eqb]. rewrite Bool.eqb_reflx. reflexivity.
Qed.

Lemma keyspace_exists_no_exit (keyspace : string) (s : server) :
  no_exit (exists_ keyspace s).
Proof.
unfold keyspace_exists.
apply bind_no_exit; [apply of_sum_no_exit|]. intros rows.
apply bind_no_exit;
  [destruct rows; [apply raise_no_exit | apply ok_no_exit]|].
intros version.
apply bind_no_exit;
  [destruct version; [apply raise_no_exit | apply int_no_exit]|].
intros major.
apply bind_no_exit; [apply of_sum_no_exit|]. intros. apply ok_no_exit.
Qed.

Lemma get_keyspace_config_no_exit (keyspace : string) (s : server) :
  no_exit (config keyspace s).
Proof.
unfold get_keyspace_config, get_keyspace.
apply bind_no_exit;
  [destruct (export_as_string s keyspace); [apply ok_no_exit | apply raise_no_exit]|].
intros text.
apply bind_no_exit;
  [destruct (search_dict text); [apply ok_no_exit | apply raise_no_exit]|].
intros m.
apply bind_no_exit; [apply of_sum_no_exit|]. intros. apply ok_no_exit.
Qed.

Lemma check_each_dc_no_exit (cfg dcs : dict) (changed : bool) :
  no_exit (check_each_dc cfg dcs changed).
Proof.
revert changed. induction dcs as [|[dc factor] dcs IH]; intro changed;
  cbn [check_each_dc]; [apply ok_no_exit|].
destruct (contains (keys cfg) dc); [|apply IH].
apply bind_no_exit; [apply int_no_exit|]. intros wanted.
apply bind_no_exit; [apply getitem_no_exit|]. intros live_v.
apply bind_no_exit; [apply int_no_exit|]. intros live. apply IH.
Qed.

(** The diff leaves through [SystemExit] only by [fail_json]. *)
Lemma keyspace_is_changed_exits_by_fail_json
    (keyspace : string) (rf : Z) (dw : bool) (dcs : option dict) (s : server)
    (x : exit) :
  is_changed keyspace rf dw dcs s = SystemExit x -> exists msg, x = fail_json msg.
Proof.
unfold keyspace_is_changed.
destruct (config keyspace s) as [cfg|e|y] eqn:Ecfg; cbn [bind];
  [| discriminate | now apply get_keyspace_config_no_exit in Ecfg].
destruct (getitem cfg "class") as [class|e|y] eqn:Ecl; cbn [bind];
  [| discriminate | now apply getitem_no_exit in Ecl].
destruct (value_eqb class (VStr "SimpleStrategy")).
- intro H. exfalso. revert H.
  apply bind_no_exit; [apply getitem_no_exit|]. intros rf_v.
  apply bind_no_exit; [apply int_no_exit|]. intros n.
  destruct (negb (n =? rf)); [apply ok_no_exit|].
  apply bind_no_exit; [apply getitem_no_exit|]. intros. apply ok_no_exit.
- destruct (value_eqb class (VStr "NetworkTopologyStrategy")).
  + intro H. exfalso. revert H.
    apply bind_no_exit; [apply getitem_no_exit|]. intros v.
    destruct (negb (value_eqb v (VBool dw))); [apply ok_no_exit|].
    destruct dcs as [dcs|]; [|apply raise_no_exit].
    apply bind_no_exit; [apply check_each_dc_no_exit|]. intros c.
    destruct (negb c); apply ok_no_exit.
  + intro H. injection H as <-. eauto.
Qed.

(** A desired data centre agrees with the live configuration when the
    live configuration has it and both factors read as the same number. *)
Lemma check_each_dc_same (cfg dcs : dict) (changed : bool) :
  Forall (fun dc => exists live n,
            get cfg (fst dc) = Some live
            /\ int (snd dc) = Ok n /\ int live = Ok n) dcs ->
  check_each_dc cfg dcs changed = Ok changed.
Proof.
intro H. revert changed.
induction H as [|[dc factor] dcs (live & n & Hget & Hwant & Hlive) _ IH];
  intro changed; cbn [check_each_dc]; [reflexivity|].
cbn [fst snd] in *.
rewrite (get_some_contains _ _ _ Hget), Hwant. cbn [bind].
unfold getitem. rewrite Hget. cbn [bind]. rewrite Hlive. cbn [bind].
rewrite Z.eqb_refl. apply IH.
Qed.

Lemma check_removed_dc_same (cfg dcs : dict) :
  (forall k, In k (keys cfg) ->
     In k (keys dcs) \/ k = "class" \/ k = "durable_writes") ->
  check_removed_dc cfg dcs false = false.
Proof.
unfold check_removed_dc. induction (keys cfg) as [|k ks IH]; intro H;
  cbn [fold_left]; [reflexivity|].
assert (Hk : (negb (contains (keys dcs) k)
              && negb (contains ["class"; "durable_writes"] k))%bool = false).
{ destruct (H k (or_introl eq_refl)) as [Hin|Hres].
  - apply contains_in in Hin. now rewrite Hin.
  - assert (Hc : contains ["class"; "durable_writes"] k = true)
      by (apply contains_in; cbn; intuition auto).
    rewrite Hc. apply Bool.andb_false_r. }
rewrite Hk. apply IH. intros k' Hin. apply H. now right.
Qed.

(** With durable writes desired on, a SimpleStrategy keyspace whose live
    factor reads as the desired one is unchanged. *)
Lemma keyspace_is_changed_same_simple
    (keyspace : string) (rf : Z) (dcs : option dict) (s : server)
    (cfg : dict) (live : value) :
  config keyspace s = Ok cfg ->
  get cfg "class" = Some (VStr "SimpleStrategy") ->
  get cfg "replication_factor" = Some live ->
  int live = Ok rf ->
  is_changed keyspace rf true dcs s = Ok false.
Proof.
intros Hcfg Hclass Hrf Hint. unfold keyspace_is_changed, getitem.
rewrite Hcfg. cbn [bind]. rewrite Hclass. cbn [bind].
change (value_eqb (VStr "SimpleStrategy") (VStr "SimpleStrategy")) with true.
cbv iota. rewrite Hrf. cbn [bind]. rewrite Hint. cbn [bind].
rewrite Z.eqb_refl. cbn [negb].
rewrite (get_keyspace_config_durable_writes _ _ _ Hcfg). reflexivity.
Qed.

(** With durable writes desired on, a NetworkTopologyStrategy keyspace
    whose live data centres are the desired ones, factor by factor, is
    unchanged. *)
Lemma keyspace_is_changed_same_network
    (keyspace : string) (rf : Z) (dcs : dict) (s : server) (cfg : dict) :
  config keyspace s = Ok cfg ->
  get cfg "class" = Some (VStr "NetworkTopologyStrategy") ->
  Forall (fun dc => exists live n,
            get cfg (fst dc) = Some live
            /\ int (snd dc) = Ok n /\ int live = Ok n) dcs ->
  (forall k, In k (keys cfg) ->
     In k (keys dcs) \/ k = "class" \/ k = "durable_writes") ->
  is_changed keyspace rf true (Some dcs) s = Ok false.
Proof.
intros Hcfg Hclass Hdcs Hkeys. unfold keyspace_is_changed, getitem.
rewrite Hcfg. cbn [bind]. rewrite Hclass. cbn [bind].
change (value_eqb (VStr "NetworkTopologyStrategy") (VStr "SimpleStrategy"))
  with false.
change (value_eqb (VStr "NetworkTopologyStrategy")
          (VStr "NetworkTopologyStrategy")) with true.
cbv iota.
rewrite (get_keyspace_config_durable_writes _ _ _ Hcfg). cbn [bind value_eqb Bool.eqb negb].
rewrite (check_each_dc_same _ _ _ Hdcs). cbn [bind negb].
now rewrite check_removed_dc_same.
Qed.

(** Whatever the live keyspace, with durable writes desired off a
    SimpleStrategy keyspace whose factor matches is reported as changed. *)
Lemma keyspace_is_changed_durable_writes_off
    (keyspace : string) (rf : Z) (dcs : option dict) (s : server)
    (cfg : dict) (live : value) :
  config keyspace s = Ok cfg ->
  get cfg "class" = Some (VStr "SimpleStrategy") ->
  get cfg "replication_factor" = Some live ->
  int live = Ok rf ->
  is_changed keyspace rf false dcs s = Ok true.
Proof.
intros Hcfg Hclass Hrf Hint. unfold keyspace_is_changed, getitem.
rewrite Hcfg. cbn [bind]. rewrite Hclass. cbn [bind].
change (value_eqb (VStr "SimpleStrategy") (VStr "SimpleStrategy")) with true.
cbv iota. rewrite Hrf. cbn [bind]. rewrite Hint. cbn [bind].
rewrite Z.eqb_refl. cbn [negb].
rewrite (get_keyspace_config_durable_writes _ _ _ Hcfg). reflexivity.
Qed.

(** *** The invocation, branch by branch *)

Ltac enter_main Hest :=
  unfold main; rewrite Hest;
  unfold apply_state, reconcile, try_except, mbind, read, ret, exit_with;
  cbv beta.

Lemma main_diff_raises
    (h : host) (p : params) (sessions : Cluster * Cluster) (st : world server)
    (e : exn) :
  establish h p = Ok sessions ->
  exists_ (name p) (srv st) = Ok true ->
  state p = "present" ->
  is_changed (name p) (replication_factor p) (durable_writes p)
    (data_centres p) (srv st) = Raise e ->
  run_main h p st
  = (Exited (fail_json ("An error occured: " ++ exn_str e)), st).
Proof.
intros Hest Hex Hstate Hdiff. enter_main Hest.
rewrite Hex, Hstate. cbn [String.eqb Ascii.eqb Bool.eqb].
destruct (check_mode p); rewrite Hdiff; reflexivity.
Qed.

Lemma main_diff_exits
    (h : host) (p : params) (sessions : Cluster * Cluster) (st : world server)
    (x : exit) :
  establish h p = Ok sessions ->
  exists_ (name p) (srv st) = Ok true ->
  state p = "present" ->
  is_changed (name p) (replication_factor p) (durable_writes p)
    (data_centres p) (srv st) = SystemExit x ->
  run_main h p st = (Exited x, st).
Proof.
intros Hest Hex Hstate Hdiff. enter_main Hest.
rewrite Hex, Hstate. cbn [String.eqb Ascii.eqb Bool.eqb].
destruct (check_mode p); rewrite Hdiff; reflexivity.
Qed.

Lemma main_drop
    (h : host) (p : params) (sessions : Cluster * Cluster) (st : world server)
    (s' : server) :
  establish h p = Ok sessions ->
  exists_ (name p) (srv st) = Ok true ->
  state p = "absent" ->
  check_mode p = false ->
  write_execute (srv st) ("DROP KEYSPACE " ++ name p) = (s', None) ->
  run_main h p st
  = (Exited (exit_json {| changed := true; keyspace := name p; cql := None |}),
     {| srv := s';
        submitted := (submitted st ++ [("DROP KEYSPACE " ++ name p)%string])%list |}).
Proof.
intros Hest Hex Hstate Hmode Hw. enter_main Hest.
rewrite Hex, Hstate, Hmode. cbn [String.eqb Ascii.eqb Bool.eqb].
unfold drop_keyspace, mbind, session_w_execute, ret. rewrite Hw. reflexivity.
Qed.

Lemma main_absent_absent
    (h : host) (p : params) (sessions : Cluster * Cluster) (st : world server) :
  establish h p = Ok sessions ->
  exists_ (name p) (srv st) = Ok false ->
  state p = "absent" ->
  run_main h p st
  = (Exited (exit_json {| changed := false; keyspace := name p; cql := None |}),
     st).
Proof.
intros Hest Hex Hstate. enter_main Hest.
rewrite Hex, Hstate. cbn [String.eqb Ascii.eqb Bool.eqb].
destruct (check_mode p); reflexivity.
Qed.

Lemma open_sessions_never_exits
    (h : host) (p : params) (hosts : list string) (x : exit) :
  open_sessions h p hosts <> SystemExit x.
Proof.
unfold open_sessions, raise_if, get_read_and_write_sessions.
destruct (ssl p);
  [ destruct (contains _ (ssl_cert_reqs p));
    [ destruct (load_verify_locations h _); [cbn; discriminate|] | ] | ];
  cbn [bind];
  (destruct (lookup name_to_value _); [|cbn; discriminate]);
  cbn [bind fst snd];
  (destruct (connect h _); [cbn; discriminate|]);
  cbn [bind];
  (destruct (connect h _); cbn; discriminate).
Qed.

(** Before the sessions are open the module only leaves through
    [fail_json]. *)
Lemma establish_exits_by_fail_json (h : host) (p : params) (x : exit) :
  establish h p = SystemExit x -> exists msg, x = fail_json msg.
Proof.
unfold establish.
destruct (HAS_CASSANDRA_DRIVER h); cbn [bind negb]; [|discriminate].
destruct (negb (HAS_SSL_LIBRARY h) && ssl p)%bool; cbn [bind];
  [intro H; injection H as <-; eauto|].
destruct (contains _ (ssl_cert_reqs p) && String.eqb _ _)%bool; cbn [bind];
  [intro H; injection H as <-; eauto|].
destruct (contains _ (ssl_cert_reqs p) && negb _)%bool; cbn [bind];
  [intro H; injection H as <-; eauto|].
destruct (open_sessions h p _) as [ss|e|y] eqn:E.
- discriminate.
- destruct e; intro H; injection H as <-; eauto.
- now apply open_sessions_never_exits in E.
Qed.

Lemma establish_check_mode (h : host) (p : params) (b : bool) :
  establish h (with_check_mode p b) = establish h p.
Proof. reflexivity. Qed.

Ltac open_reconcile :=
  unfold apply_state, reconcile, try_except, mbind, read, ret, exit_with,
    create_alter_keyspace, drop_keyspace, session_w_execute, mbind, ret;
  cbn [name state check_mode replication_factor durable_writes
       data_centres with_check_mode];
  cbv beta.

(** C3: in check mode the invocation leaves the server and the list of
    submitted statements as they were, so no CREATE, ALTER or DROP is
    executed; and whenever the same request out of check mode reports a
    [changed], the check-mode run reports the same one.  The other way
    round, what the check-mode run reports is what the real run reports
    unless the real run fails in its second [try]. *)
Theorem check_mode_is_dry_and_reports_the_same_change
    (h : host) (p : params) (st : world server) :
  let dry := run_main h (with_check_mode p true) st in
  let wet := run_main h (with_check_mode p false) st in
  snd dry = st
  /\ (forall b, reported_changed (fst wet) = Some b ->
                reported_changed (fst dry) = Some b)
  /\ (forall b, reported_changed (fst dry) = Some b ->
                reported_changed (fst wet) = Some b
                \/ exists e, fst wet
                     = Exited (fail_json ("An error occured: " ++ exn_str e))).
Proof.
cbv zeta. unfold main. rewrite !establish_check_mode.
destruct (establish h p) as [sessions|e|x];
  [| cbn; repeat split; auto | cbn; repeat split; auto ].
open_reconcile.
destruct (keyspace_exists read_execute (name p) (srv st)) as [[|]|e|x];
  (destruct (String.eqb_spec (state p) "present") as [E|N];
   [ try rewrite E; change (String.eqb "present" "absent") with false
   | destruct (String.eqb (state p) "absent") ]);
  try destruct (keyspace_is_changed export_as_string py_eval (name p)
                  (replication_factor p) (durable_writes p) (data_centres p)
                  (srv st)) as [[|]|e|x];
  try destruct (write_execute (srv st) _) as [s' [e'|]];
  cbn; repeat split; intros; try discriminate; eauto.
Qed.

(** C6: when the keyspace exists, the desired state is absent and the run
    is not a check, the invocation hands DROP KEYSPACE to the write session
    and reports a change; the same invocation on the server the drop left
    behind, where the keyspace is no longer found, submits nothing and
    reports no change. *)
Theorem drop_then_repeat_is_a_no_op
    (h : host) (p : params) (sessions : Cluster * Cluster) (st : world server)
    (s' : server) :
  establish h p = Ok sessions ->
  exists_ (name p) (srv st) = Ok true ->
  state p = "absent" ->
  check_mode p = false ->
  write_execute (srv st) ("DROP KEYSPACE " ++ name p) = (s', None) ->
  exists_ (name p) s' = Ok false ->
  let dropped :=
    {| srv := s';
       submitted := (submitted st ++ [("DROP KEYSPACE " ++ name p)%string])%list |} in
  run_main h p st
  = (Exited (exit_json {| changed := true; keyspace := name p; cql := None |}),
     dropped)
  /\ run_main h p dropped
     = (Exited (exit_json {| changed := false; keyspace := name p; cql := None |}),
        dropped).
Proof.
intros Hest Hex Hstate Hmode Hw Hgone dropped. split.
- eapply main_drop; eassumption.
- eapply main_absent_absent; eassumption.
Qed.

(** C8: when the class of the fetched configuration is neither
    SimpleStrategy nor NetworkTopologyStrategy, the diff does not return: it
    leaves through [fail_json] with a message that names the class, which is
    not the message of the generic handler, and the invocation ends there,
    in check mode or not, with nothing submitted. *)
Theorem unknown_replication_class_is_fatal
    (h : host) (p : params) (sessions : Cluster * Cluster) (st : world server)
    (cfg : dict) (class : value) :
  config (name p) (srv st) = Ok cfg ->
  get cfg "class" = Some class ->
  class <> VStr "SimpleStrategy" ->
  class <> VStr "NetworkTopologyStrategy" ->
  let msg := "Unknown Replication strategy: " ++ str class in
  is_changed (name p) (replication_factor p) (durable_writes p)
    (data_centres p) (srv st) = SystemExit (fail_json msg)
  /\ (forall e, msg <> "An error occured: " ++ exn_str e)
  /\ (establish h p = Ok sessions ->
      exists_ (name p) (srv st) = Ok true ->
      state p = "present" ->
      run_main h p st = (Exited (fail_json msg), st)).
Proof.
intros Hcfg Hclass Hs Hn msg.
assert (Hdiff : is_changed (name p) (replication_factor p) (durable_writes p)
                  (data_centres p) (srv st) = SystemExit (fail_json msg))
  by (eapply keyspace_is_changed_unknown; eassumption).
split; [exact Hdiff|]. split.
- intros e. subst msg. cbn [append]. discriminate.
- intros Hest Hex Hstate. eapply main_diff_exits; eassumption.
Qed.

(** C9: when the fetched class is NetworkTopologyStrategy, the fetched
    durable-writes flag equals the desired one and no data-centre mapping is
    given, the diff returns no verdict: iterating the absent mapping raises,
    and the invocation ends in the generic handler's [fail_json]. *)
Theorem absent_mapping_against_network_topology_raises
    (h : host) (p : params) (sessions : Cluster * Cluster) (st : world server)
    (cfg : dict) :
  config (name p) (srv st) = Ok cfg ->
  get cfg "class" = Some (VStr "NetworkTopologyStrategy") ->
  get cfg "durable_writes" = Some (VBool (durable_writes p)) ->
  data_centres p = None ->
  is_changed (name p) (replication_factor p) (durable_writes p)
    (data_centres p) (srv st) = Raise none_not_iterable
  /\ (establish h p = Ok sessions ->
      exists_ (name p) (srv st) = Ok true ->
      state p = "present" ->
      run_main h p st
      = (Exited (fail_json
           "An error occured: 'NoneType' object is not iterable"), st)).
Proof.
intros Hcfg Hclass Hdw Hnone.
assert (Hdiff : is_changed (name p) (replication_factor p) (durable_writes p)
                  (data_centres p) (srv st) = Raise none_not_iterable)
  by (rewrite Hnone; eapply keyspace_is_changed_none; eassumption).
split; [exact Hdiff|].
intros Hest Hex Hstate.
exact (main_diff_raises h p sessions st _ Hest Hex Hstate Hdiff).
Qed.

(** C10: on the drop path the result carries [changed = true] and the
    keyspace name but no [cql], although DROP KEYSPACE was submitted; and a
    result that does carry [cql] comes from a run out of check mode with
    state present, whose only submitted statement is that CREATE (keyspace
    not found) or ALTER (keyspace found) text. *)
Theorem drop_result_has_no_cql :
  (forall (h : host) (p : params) (sessions : Cluster * Cluster)
          (st : world server) (s' : server),
     establish h p = Ok sessions ->
     exists_ (name p) (srv st) = Ok true ->
     state p = "absent" ->
     check_mode p = false ->
     write_execute (srv st) ("DROP KEYSPACE " ++ name p) = (s', None) ->
     run_main h p st
     = (Exited (exit_json {| changed := true; keyspace := name p; cql := None |}),
        {| srv := s';
           submitted :=
             (submitted st ++ [("DROP KEYSPACE " ++ name p)%string])%list |}))
  /\ (forall (h : host) (p : params) (st st' : world server)
             (r : result_dict) (text : string),
        run_main h p st = (Exited (exit_json r), st') ->
        cql r = Some text ->
        check_mode p = false
        /\ state p = "present"
        /\ submitted st' = (submitted st ++ [text])%list
        /\ exists found,
             exists_ (name p) (srv st) = Ok found
             /\ text = create_alter_keyspace_cql (name p) (replication_factor p)
                         (durable_writes p) (data_centres p) found).
Proof.
split.
- intros. eapply main_drop; eassumption.
- intros h p st st' r text. unfold main.
  destruct (establish h p) as [sessions|e|x] eqn:Hest; [| discriminate |].
  2:{ intros H Hc. injection H as -> <-.
      apply establish_exits_by_fail_json in Hest as [msg Hmsg]. discriminate. }
  open_reconcile.
  destruct (keyspace_exists read_execute (name p) (srv st))
    as [[|]|e|x] eqn:Hex;
    [ | | | now apply keyspace_exists_no_exit in Hex ];
  destruct (check_mode p);
  (destruct (String.eqb_spec (state p) "present") as [E|N];
   [ try rewrite E; change (String.eqb "present" "absent") with false
   | destruct (String.eqb (state p) "absent") ]);
  try (destruct (keyspace_is_changed export_as_string py_eval (name p)
                   (replication_factor p) (durable_writes p) (data_centres p)
                   (srv st)) as [[|]|e|x] eqn:Hdiff;
       [ | | | apply keyspace_is_changed_exits_by_fail_json in Hdiff
                 as [msg ->] ]);
  try destruct (write_execute (srv st) _) as [s1 [e1|]];
  cbn; intros H Hc; try discriminate;
  inversion H; subst; clear H; cbn in Hc; try discriminate;
  injection Hc as <-; repeat split; eauto.
Qed.

End Properties.

(* ================================================================= *)
(** ** The module on the sample cluster *)

(** C1: on an exported text that contains [DURABLE_WRITES = False;] the
    search finds the flag, and the fetched configuration nevertheless has
    [durable_writes] true: the matched text, not the flag in it, is turned
    into a boolean. *)
Theorem durable_writes_false_is_fetched_as_true :
  search_durable_writes Sample.simple_false = Some "DURABLE_WRITES = False;"
  /\ get_keyspace_config Sample.export Sample.eval "ks"
       (srv (Sample.start Sample.simple_false))
     = Ok [ ("class", VStr "SimpleStrategy");
            ("replication_factor", VStr "1");
            ("durable_writes", VBool true) ].
Proof. split; vm_compute; reflexivity. Qed.

(** C2: a keyspace that has SimpleStrategy, replication factor 1 and
    durable writes off, compared with exactly that as the desired
    configuration, is reported as changed, and the real run alters it; this
    holds for the exported text in the form the module searches for and in
    the form the driver writes. *)
Theorem diff_of_equal_configurations_with_durable_writes_off :
  keyspace_is_changed Sample.export Sample.eval "ks" 1 false None
    (srv (Sample.start Sample.simple_false)) = Ok true
  /\ keyspace_is_changed Sample.export Sample.eval "ks" 1 false None
       (srv (Sample.start Sample.simple_false_driver)) = Ok true
  /\ fst (Sample.run (Sample.request "ks" "present" 1 false None false)
            (Sample.start Sample.simple_false_driver))
     = Exited (exit_json {|
         changed := true;
         keyspace := "ks";
         cql := Some (simple_statement "ks" 1 false true) |}).
Proof. repeat split; vm_compute; reflexivity. Qed.

(** C4: with the empty mapping the statement handed to the write session
    is not the SimpleStrategy statement. *)
Lemma create_alter_keyspace_empty_mapping_counterexample :
  submitted (snd (create_alter_keyspace Sample.execute "ks" 3 true (Some [])
                    false (Sample.start Sample.simple_false)))
  = ["CREATE KEYSPACE ks WITH REPLICATION = { 'class' : 'NetworkTopologyStrategy', } AND DURABLE_WRITES = True"]
  /\ create_alter_keyspace_cql "ks" 3 true (Some []) false
     <> simple_statement "ks" 3 true false.
Proof.
split; [reflexivity|].
apply create_alter_keyspace_cql_empty_mapping.
Qed.

Lemma create_alter_keyspace_network_topology_witness :
  let dcs := [("new_york", VInt 2); ("tokyo", VInt 1); ("zurich", VInt 3)] in
  dcs <> []
  /\ submitted (snd (create_alter_keyspace Sample.execute "multidc_keyspace" 1
                       true (Some dcs) true (Sample.start Sample.simple_false)))
     = ["ALTER KEYSPACE multidc_keyspace WITH REPLICATION = { 'class' : 'NetworkTopologyStrategy',  'new_york' : 2, 'tokyo' : 1, 'zurich' : 3 } AND DURABLE_WRITES = True"].
Proof.
split; [discriminate|].
exact (proj1 (create_alter_keyspace_network_topology Sample.execute
                "multidc_keyspace" 1 true true
                [("new_york", VInt 2); ("tokyo", VInt 1); ("zurich", VInt 3)]
                (Sample.start Sample.simple_false)
                ltac:(discriminate))).
Defined.

Lemma get_read_and_write_sessions_fallback_witness :
  lookup name_to_value "EACH_QUORUM" = Some 7
  /\ exists cluster_r cluster_w,
       get_read_and_write_sessions ["127.0.0.1"] 9042 None None "EACH_QUORUM"
         = Ok (cluster_r, cluster_w)
       /\ execution_profiles cluster_r = None
       /\ execution_profiles cluster_w = Some {| profile_consistency_level := 7 |}.
Proof.
split; [reflexivity|].
destruct (get_read_and_write_sessions_fallback ["127.0.0.1"] 9042 None None
            "EACH_QUORUM" 7 eq_refl)
  as (r & w & Hrun & _ & _ & Hr & _ & _ & Hw).
exists r, w. split; [exact Hrun|]. split.
- apply Hr. right. reflexivity.
- apply Hw; discriminate.
Defined.

Lemma drop_then_repeat_is_a_no_op_witness :
  let p := Sample.request "ks" "absent" 1 true None false in
  let st := Sample.start Sample.simple_false in
  let dropped :=
    {| srv := {| Sample.release_version := "3.11.4"; Sample.exported := [] |};
       submitted := ["DROP KEYSPACE ks"] |} in
  establish Sample.machine p = Ok Sample.sessions
  /\ keyspace_exists Sample.select "ks" (srv st) = Ok true
  /\ keyspace_exists Sample.select "ks" (srv dropped) = Ok false
  /\ Sample.run p st
     = (Exited (exit_json {| changed := true; keyspace := "ks"; cql := None |}),
        dropped)
  /\ Sample.run p dropped
     = (Exited (exit_json {| changed := false; keyspace := "ks"; cql := None |}),
        dropped).
Proof.
cbv zeta. split; [reflexivity|]. split; [reflexivity|]. split; [reflexivity|].
exact (drop_then_repeat_is_a_no_op Sample.select Sample.export Sample.execute
         Sample.eval Sample.machine
         (Sample.request "ks" "absent" 1 true None false) Sample.sessions
         (Sample.start Sample.simple_false)
         {| Sample.release_version := "3.11.4"; Sample.exported := [] |}
         eq_refl eq_refl eq_refl eq_refl eq_refl eq_refl).
Defined.

Lemma unknown_replication_class_is_fatal_witness :
  let p := Sample.request "ks" "present" 1 true None false in
  let st := Sample.start Sample.local_strategy in
  get_keyspace_config Sample.export Sample.eval "ks" (srv st)
    = Ok [("class", VStr "LocalStrategy"); ("durable_writes", VBool true)]
  /\ keyspace_is_changed Sample.export Sample.eval "ks" 1 true None (srv st)
     = SystemExit (fail_json "Unknown Replication strategy: LocalStrategy")
  /\ Sample.run p st
     = (Exited (fail_json "Unknown Replication strategy: LocalStrategy"), st).
Proof.
cbv zeta. split; [reflexivity|].
pose proof (unknown_replication_class_is_fatal Sample.select Sample.export
              Sample.execute Sample.eval Sample.machine
              (Sample.request "ks" "present" 1 true None false) Sample.sessions
              (Sample.start Sample.local_strategy)
              [("class", VStr "LocalStrategy"); ("durable_writes", VBool true)]
              (VStr "LocalStrategy") eq_refl eq_refl
              ltac:(discriminate) ltac:(discriminate)) as (Hdiff & _ & Hmain).
split; [exact Hdiff|].
exact (Hmain eq_refl eq_refl eq_refl).
Defined.

Lemma absent_mapping_against_network_topology_raises_witness :
  let p := Sample.request "ks" "present" 1 true None false in
  let st := Sample.start Sample.network_london in
  get_keyspace_config Sample.export Sample.eval "ks" (srv st)
    = Ok [ ("class", VStr "NetworkTopologyStrategy"); ("london", VStr "3");
           ("durable_writes", VBool true) ]
  /\ keyspace_is_changed Sample.export Sample.eval "ks" 1 true None (srv st)
     = Raise none_not_iterable
  /\ Sample.run p st
     = (Exited (fail_json "An error occured: 'NoneType' object is not iterable"),
        st).
Proof.
cbv zeta. split; [reflexivity|].
pose proof (absent_mapping_against_network_topology_raises Sample.select
              Sample.export Sample.execute Sample.eval Sample.machine
              (Sample.request "ks" "present" 1 true None false) Sample.sessions
              (Sample.start Sample.network_london)
              [ ("class", VStr "NetworkTopologyStrategy"); ("london", VStr "3");
                ("durable_writes", VBool true) ]
              eq_refl eq_refl eq_refl eq_refl) as (Hdiff & Hmain).
split; [exact Hdiff|].
exact (Hmain eq_refl eq_refl eq_refl).
Defined.

Lemma drop_result_has_no_cql_witness :
  let p := Sample.request "ks" "absent" 1 true None false in
  let st := Sample.start Sample.simple_false in
  establish Sample.machine p = Ok Sample.sessions
  /\ keyspace_exists Sample.select "ks" (srv st) = Ok true
  /\ Sample.run p st
     = (Exited (exit_json {| changed := true; keyspace := "ks"; cql := None |}),
        {| srv := {| Sample.release_version := "3.11.4"; Sample.exported := [] |};
           submitted := ["DROP KEYSPACE ks"] |}).
Proof.
cbv zeta. split; [reflexivity|]. split; [reflexivity|].
exact (proj1 (drop_result_has_no_cql Sample.select Sample.export
                Sample.execute Sample.eval)
         Sample.machine (Sample.request "ks" "absent" 1 true None false)
         Sample.sessions (Sample.start Sample.simple_false)
         {| Sample.release_version := "3.11.4"; Sample.exported := [] |}
         eq_refl eq_refl eq_refl eq_refl eq_refl).
Defined.

(* ================================================================= *)
(** ** The existence check and the fetch, case by case *)

Lemma int_of_digit (c : ascii) :
  is_digit c = true -> int (VStr (String c EmptyString)) = Ok (digit_val c).
Proof.
destruct c as [[] [] [] [] [] [] [] []]; intro H;
  try discriminate H; reflexivity.
Qed.


Lemma membership_fold (keyspace : string) (rows : list string) (found : bool) :
  fold_left
    (fun keyspace_exists ks =>
       if String.eqb ks keyspace then true else keyspace_exists)
    rows found = true
  <-> found = true \/ In keyspace rows.
Proof.
revert found. induction rows as [|ks rows IH]; intro found; cbn [fold_left In].
- tauto.
- rewrite IH. destruct (String.eqb_spec ks keyspace) as [->|Hne].
  + tauto.
  + split; [tauto|]. intros [H|[H|H]]; [auto | contradiction | auto].
Qed.

Lemma upto_last_brace_shape (s m : string) :
  upto_last_brace s = Some m ->
  last_char m = Some "}"%char
  /\ has_char newline m = false
  /\ exists b, s = m ++ b.
Proof.
revert m. induction s as [|c s IH]; intro m; cbn [upto_last_brace];
  [discriminate|].
destruct (Ascii.eqb c newline) eqn:Hnl; [discriminate|].
destruct (upto_last_brace s) as [m'|].
- intro H. injection H as <-.
  destruct (IH m' eq_refl) as (Hlast & Hline & b & Hs).
  split; [|split].
  + destruct m' as [|x m']; [discriminate Hlast | exact Hlast].
  + cbn [has_char]. now rewrite Hnl, Hline.
  + exists b. cbn [append]. now rewrite <- Hs.
- destruct (Ascii.eqb_spec c "}") as [->|]; [|discriminate].
  intro H. injection H as <-.
  split; [reflexivity|]. split; [reflexivity|]. now exists s.
Qed.

Lemma get_setitem_other (d : dict) (k k' : string) (v : value) :
  k' <> k -> get (setitem d k v) k' = get d k'.
Proof.
intro Hne. induction d as [|[k0 v0] d IH]; cbn [setitem get].
- apply String.eqb_neq in Hne. now rewrite Hne.
- destruct (String.eqb k k0) eqn:E; cbn [get].
  + apply String.eqb_eq in E. subst k0.
    apply String.eqb_neq in Hne. now rewrite Hne.
  + destruct (String.eqb k' k0); [reflexivity | exact IH].
Qed.

Lemma keys_setitem (d : dict) (k : string) (v : value) (k' : string) :
  In k' (keys (setitem d k v)) <-> In k' (keys d) \/ k' = k.
Proof.
unfold keys. induction d as [|[k0 v0] d IH]; cbn [setitem map fst In].
- split; [intros [H|[]]; auto | intros [[]|H]; auto].
- destruct (String.eqb_spec k k0) as [->|Hne]; cbn [map fst In].
  + split; [tauto | intros [H|H]; auto].
  + rewrite IH. tauto.
Qed.

Section Coverage.

Context {server : Type}.
Variable read_execute : server -> string -> exn + list string.
Variable export_as_string : server -> string -> option string.
Variable write_execute : server -> string -> server * option exn.
Variable py_eval : string -> exn + dict.

Local Abbreviation exists_ := (keyspace_exists read_execute).
Local Abbreviation config := (get_keyspace_config export_as_string py_eval).
Local Abbreviation is_changed := (keyspace_is_changed export_as_string py_eval).
Local Abbreviation run_main :=
  (main read_execute export_as_string write_execute py_eval).

(** X1: when the release text starts with a digit, the catalogue that is
    read is chosen by that one digit (3 or more: [system_schema.keyspaces],
    less: [system.schema_keyspaces]) and the answer is whether the name is,
    character for character, one of the rows. *)
Theorem keyspace_exists_is_membership
    (keyspace : string) (s : server) (c : ascii) (version : string)
    (others rows : list string) :
  read_execute s version_query = inr (String c version :: others) ->
  is_digit c = true ->
  read_execute s (keyspaces_query (digit_val c)) = inr rows ->
  exists found,
    exists_ keyspace s = Ok found /\ (found = true <-> In keyspace rows).
Proof.
intros Hv Hd Hrows. unfold keyspace_exists.
change "SELECT release_version FROM system.local WHERE key='local'"
  with version_query.
rewrite Hv. cbn [of_sum bind]. rewrite (int_of_digit c Hd). cbn [bind].
change (if 3 <=? digit_val c
        then "SELECT keyspace_name FROM system_schema.keyspaces"
        else "SELECT keyspace_name FROM system.schema_keyspaces")
  with (keyspaces_query (digit_val c)).
rewrite Hrows. cbn [of_sum bind].
eexists. split; [reflexivity|].
rewrite membership_fold. split; [intros [H|H]; [discriminate|exact H] | auto].
Qed.


(** X3: when the existence check raises, in whatever mode and for whatever
    desired state, the invocation fails with the generic message followed by
    the exception's text; nothing is submitted and the server is as it
    was. *)
Theorem main_existence_check_raises
    (h : host) (p : params) (sessions : Cluster * Cluster) (st : world server)
    (e : exn) :
  establish h p = Ok sessions ->
  exists_ (name p) (srv st) = Raise e ->
  run_main h p st
  = (Exited (fail_json ("An error occured: " ++ exn_str e)), st).
Proof.
intros Hest Hex. unfold main. rewrite Hest.
unfold apply_state, reconcile, try_except, mbind, read. cbv beta.
rewrite Hex. reflexivity.
Qed.

(** X4: the fetch raises [KeyError] with the keyspace name when the
    metadata does not know the keyspace, [AttributeError] when no line of
    the exported text has an opening brace with a closing brace after it,
    and whatever the evaluation of the map raises. *)
Theorem get_keyspace_config_failures (keyspace : string) (s : server) :
  (export_as_string s keyspace = None ->
   config keyspace s = Raise (KeyError keyspace))
  /\ (forall text,
        export_as_string s keyspace = Some text ->
        search_dict text = None ->
        config keyspace s = Raise none_has_no_group)
  /\ (forall text m e,
        export_as_string s keyspace = Some text ->
        search_dict text = Some m ->
        py_eval m = inl e ->
        config keyspace s = Raise e).
Proof.
unfold get_keyspace_config, get_keyspace. repeat split.
- intros ->. reflexivity.
- intros text He Hs. rewrite He. cbn [bind]. rewrite Hs. reflexivity.
- intros text m e He Hs Hev. rewrite He. cbn [bind]. rewrite Hs. cbn [bind].
  rewrite Hev. reflexivity.
Qed.

(** X5: when the map evaluates to a dictionary, the fetched configuration
    is that dictionary with [durable_writes] set: every other key reads as
    in the evaluated map, and a [durable_writes] key of the map itself is
    overwritten. *)
Theorem get_keyspace_config_keeps_the_map
    (keyspace : string) (s : server) (text m : string) (d : dict) :
  export_as_string s keyspace = Some text ->
  search_dict text = Some m ->
  py_eval m = inr d ->
  exists cfg,
    config keyspace s = Ok cfg
    /\ (forall k, k <> "durable_writes" -> get cfg k = get d k)
    /\ (exists b, get cfg "durable_writes" = Some (VBool b))
    /\ (forall k, In k (keys cfg) <-> In k (keys d) \/ k = "durable_writes").
Proof.
intros He Hs Hev. unfold get_keyspace_config, get_keyspace.
rewrite He. cbn [bind]. rewrite Hs. cbn [bind]. rewrite Hev. cbn [of_sum bind].
eexists. split; [reflexivity|]. split; [|split].
- intros k Hk. now apply get_setitem_other.
- eexists. apply get_setitem_same.
- intro k. apply keys_setitem.
Qed.

(** X6: the text the fetch hands to the evaluator starts with an opening
    brace, ends with a closing brace, has no line break and occurs in the
    exported text; a text without an opening brace gives no match. *)
Theorem search_dict_shape (s : string) :
  (forall m, search_dict s = Some m ->
     (exists body, m = String "{" body)
     /\ last_char m = Some "}"%char
     /\ has_char newline m = false
     /\ occurs_in m s)
  /\ (has_char "{" s = false -> search_dict s = None).
Proof.
split.
- induction s as [|c s IH]; intro m; cbn [search_dict]; [discriminate|].
  assert (Hrest : search_dict s = Some m ->
            (exists body, m = String "{" body)
            /\ last_char m = Some "}"%char
            /\ has_char newline m = false /\ occurs_in m (String c s)).
  { intro H. destruct (IH m H) as (Hb & Hl & Hn & a & b & Hs).
    repeat split; auto. exists (String c a), b. cbn [append]. now rewrite Hs. }
  destruct (Ascii.eqb_spec c "{") as [->|Hne]; [|exact Hrest].
  destruct (upto_last_brace s) as [m'|] eqn:Hm; [|exact Hrest].
  intro H. injection H as <-.
  destruct (upto_last_brace_shape s m' Hm) as (Hlast & Hline & b & Hs).
  split; [now exists m'|]. split; [|split].
  + destruct m' as [|x m']; [discriminate Hlast | exact Hlast].
  + cbn [has_char]. now rewrite Hline.
  + exists EmptyString, b. cbn [append]. now rewrite Hs.
- induction s as [|c s IH]; cbn [has_char search_dict]; [reflexivity|].
  destruct (Ascii.eqb c "{"); [discriminate|]. exact IH.
Qed.

(** *** The diff, branch by branch *)

Lemma get_none_contains (d : dict) (k : string) :
  get d k = None -> contains (keys d) k = false.
Proof.
unfold contains, keys.
induction d as [|[k' v'] d IH]; cbn [get map existsb fst]; [reflexivity|].
destruct (String.eqb k k'); [discriminate | exact IH].
Qed.

Lemma check_each_dc_spec (cfg dcs : dict) (changed : bool) :
  Forall (dc_readable cfg) dcs ->
  exists b,
    check_each_dc cfg dcs changed = Ok b
    /\ (b = true <-> changed = true \/ Exists (dc_differs cfg) dcs).
Proof.
intro H. revert changed.
induction H as [|[dc factor] dcs Hdc _ IH]; intro changed;
  cbn [check_each_dc].
- exists changed. split; [reflexivity|]. split; [auto|].
  intros [H|H]; [exact H | inversion H].
- destruct Hdc as [Hnone | (live & n & m & Hget & Hn & Hm)]; cbn [fst snd] in *.
  + rewrite (get_none_contains _ _ Hnone).
    destruct (IH true) as (b & Hb & Hiff). exists b. split; [exact Hb|].
    split; [intros _|intros _; apply Hiff; auto].
    right. left. left. exact Hnone.
  + rewrite (get_some_contains _ _ _ Hget), Hn. cbn [bind].
    unfold getitem. rewrite Hget. cbn [bind]. rewrite Hm. cbn [bind].
    destruct (IH (if negb (n =? m) then true else changed)) as (b & Hb & Hiff).
    exists b. split; [exact Hb|]. rewrite Hiff.
    destruct (Z.eqb_spec n m) as [Heq|Hne]; cbn [negb].
    * split.
      -- intros [Hc|Hex]; [auto | right; now right].
      -- intros [Hc|Hex]; [auto|].
         inversion Hex as [x l Hd|x l Hl]; subst; [|auto].
         destruct Hd as [Hd | (l' & n' & m' & Hg' & Hn' & Hm' & Hnm)];
           cbn [fst snd] in *; [congruence|].
         rewrite Hget in Hg'. injection Hg' as <-. congruence.
    * split; [intros _|auto].
      right. left. right. exists live, n, m. cbn [fst snd]. auto.
Qed.

Lemma removed_fold (dcs : dict) (l : list string) (changed : bool) :
  fold_left
    (fun changed dc =>
       if (negb (contains (keys dcs) dc)
           && negb (contains ["class"; "durable_writes"] dc))%bool
       then true else changed) l changed = true
  <-> changed = true
      \/ exists k, In k l /\ ~ In k (keys dcs)
                   /\ k <> "class" /\ k <> "durable_writes".
Proof.
revert changed. induction l as [|k l IH]; intro changed; cbn [fold_left].
- split; [auto|]. intros [H|(k & [] & _)]. exact H.
- rewrite IH.
  assert (Hk : (negb (contains (keys dcs) k)
                && negb (contains ["class"; "durable_writes"] k))%bool = true
               <-> ~ In k (keys dcs) /\ k <> "class" /\ k <> "durable_writes").
  { rewrite Bool.andb_true_iff, !Bool.negb_true_iff.
    rewrite <- !Bool.not_true_iff_false, !contains_in. cbn [In].
    intuition congruence. }
  destruct (negb (contains (keys dcs) k)
            && negb (contains ["class"; "durable_writes"] k))%bool.
  + split; [intros _|auto]. right. exists k. split; [now left|].
    now apply Hk.
  + split.
    * intros [H|(k' & Hin & Hrest)]; [auto|].
      right. exists k'. split; [now right | exact Hrest].
    * intros [H|(k' & [<-|Hin] & Hrest)]; [auto | | right; eauto].
      apply Hk in Hrest. discriminate.
Qed.

(** X7: against a live SimpleStrategy keyspace the diff looks at the
    replication factor and the durable-writes flag only: it reports a change
    exactly when the live factor reads as another number than the desired
    one or the fetched flag differs from the desired one, whatever the
    desired data centres are. *)
Theorem keyspace_is_changed_simple
    (keyspace : string) (rf : Z) (dw : bool) (dcs : option dict) (s : server)
    (cfg : dict) (live : value) (n : Z) (live_dw : bool) :
  config keyspace s = Ok cfg ->
  get cfg "class" = Some (VStr "SimpleStrategy") ->
  get cfg "replication_factor" = Some live ->
  int live = Ok n ->
  get cfg "durable_writes" = Some (VBool live_dw) ->
  is_changed keyspace rf dw dcs s
  = Ok (negb (n =? rf) || negb (Bool.eqb live_dw dw))%bool.
Proof.
intros Hcfg Hclass Hrf Hint Hdw. unfold keyspace_is_changed, getitem.
rewrite Hcfg. cbn [bind]. rewrite Hclass. cbn [bind].
change (value_eqb (VStr "SimpleStrategy") (VStr "SimpleStrategy")) with true.
cbv iota. rewrite Hrf. cbn [bind]. rewrite Hint. cbn [bind].
destruct (negb (n =? rf)); [reflexivity|].
rewrite Hdw. reflexivity.
Qed.

(** X8: against a live NetworkTopologyStrategy keyspace whose fetched flag
    equals the desired one, and with factors that read as numbers, the diff
    reports a change exactly when a desired data centre is missing live or
    has another factor, or a live data centre is missing from the desired
    mapping. *)
Theorem keyspace_is_changed_network
    (keyspace : string) (rf : Z) (dw : bool) (dcs : dict) (s : server)
    (cfg : dict) :
  config keyspace s = Ok cfg ->
  get cfg "class" = Some (VStr "NetworkTopologyStrategy") ->
  get cfg "durable_writes" = Some (VBool dw) ->
  Forall (dc_readable cfg) dcs ->
  exists b,
    is_changed keyspace rf dw (Some dcs) s = Ok b
    /\ (b = true <->
        Exists (dc_differs cfg) dcs \/ exists k, dc_removed cfg dcs k).
Proof.
intros Hcfg Hclass Hdw Hread. unfold keyspace_is_changed, getitem.
rewrite Hcfg. cbn [bind]. rewrite Hclass. cbn [bind].
change (value_eqb (VStr "NetworkTopologyStrategy") (VStr "SimpleStrategy"))
  with false.
change (value_eqb (VStr "NetworkTopologyStrategy")
          (VStr "NetworkTopologyStrategy")) with true.
cbv iota. rewrite Hdw. cbn [bind value_eqb]. rewrite Bool.eqb_reflx.
cbn [negb].
destruct (check_each_dc_spec cfg dcs false Hread) as (b & Hb & Hiff).
rewrite Hb. cbn [bind]. destruct b; cbn [negb].
- exists true. split; [reflexivity|]. split; [intros _|auto].
  left. destruct Hiff as [Hiff _]. destruct (Hiff eq_refl); [discriminate|auto].
- eexists. split; [reflexivity|]. unfold check_removed_dc.
  rewrite removed_fold. unfold dc_removed. split.
  + intros [H|H]; [discriminate | now right].
  + intros [H|H]; [|now right].
    destruct Hiff as [_ Hiff]. discriminate (Hiff (or_intror H)).
Qed.

(** X9: against a live NetworkTopologyStrategy keyspace whose fetched flag
    differs from the desired one the diff reports a change at once: the
    desired data centres are not looked at, so an absent mapping raises
    nothing. *)
Theorem keyspace_is_changed_network_flag
    (keyspace : string) (rf : Z) (dw : bool) (dcs : option dict) (s : server)
    (cfg : dict) (live_dw : bool) :
  config keyspace s = Ok cfg ->
  get cfg "class" = Some (VStr "NetworkTopologyStrategy") ->
  get cfg "durable_writes" = Some (VBool live_dw) ->
  live_dw <> dw ->
  is_changed keyspace rf dw dcs s = Ok true.
Proof.
intros Hcfg Hclass Hdw Hne. unfold keyspace_is_changed, getitem.
rewrite Hcfg. cbn [bind]. rewrite Hclass. cbn [bind].
change (value_eqb (VStr "NetworkTopologyStrategy") (VStr "SimpleStrategy"))
  with false.
change (value_eqb (VStr "NetworkTopologyStrategy")
          (VStr "NetworkTopologyStrategy")) with true.
cbv iota. rewrite Hdw. cbn [bind value_eqb].
destruct live_dw, dw; try reflexivity; congruence.
Qed.

(** X10: when the evaluated map has no [class] key the diff raises
    [KeyError] for it, and so does a SimpleStrategy map without
    [replication_factor]; an invocation that reaches the diff then fails
    with the generic message and the quoted key, with nothing submitted. *)
Theorem keyspace_is_changed_missing_key
    (h : host) (p : params) (sessions : Cluster * Cluster) (st : world server)
    (cfg : dict) (key : string) :
  config (name p) (srv st) = Ok cfg ->
  (key = "class" /\ get cfg "class" = None)
  \/ (key = "replication_factor"
      /\ get cfg "class" = Some (VStr "SimpleStrategy")
      /\ get cfg "replication_factor" = None) ->
  is_changed (name p) (replication_factor p) (durable_writes p)
    (data_centres p) (srv st) = Raise (KeyError key)
  /\ (establish h p = Ok sessions ->
      keyspace_exists read_execute (name p) (srv st) = Ok true ->
      state p = "present" ->
      run_main h p st
      = (Exited (fail_json ("An error occured: '" ++ key ++ "'")), st)).
Proof.
intros Hcfg Hkey.
assert (Hdiff : is_changed (name p) (replication_factor p) (durable_writes p)
                  (data_centres p) (srv st) = Raise (KeyError key)).
{ unfold keyspace_is_changed, getitem. rewrite Hcfg. cbn [bind].
  destruct Hkey as [[-> Hc] | (-> & Hc & Hrf)]; rewrite Hc; cbn [bind];
    [reflexivity|].
  change (value_eqb (VStr "SimpleStrategy") (VStr "SimpleStrategy")) with true.
  cbv iota. rewrite Hrf. reflexivity. }
split; [exact Hdiff|]. intros Hest Hex Hstate.
unfold main. rewrite Hest.
unfold apply_state, reconcile, try_except, mbind, read, ret, exit_with.
cbv beta. rewrite Hex, Hstate. cbn [String.eqb Ascii.eqb Bool.eqb].
destruct (check_mode p); rewrite Hdiff; reflexivity.
Qed.

(** *** The statement builder and the invocation *)

(** X11: whatever the mapping, the statement starts with CREATE or ALTER
    (by [is_alter]), the keyspace name and the opening of the replication
    map, and ends with the closing brace and the durable-writes clause of
    the requested flag; with a mapping the replication factor plays no
    part. *)
Theorem create_alter_keyspace_cql_envelope
    (keyspace : string) (rf : Z) (dw is_alter : bool) (dcs : option dict) :
  (exists body,
     create_alter_keyspace_cql keyspace rf dw dcs is_alter
     = keyword is_alter ++ keyspace ++ " WITH REPLICATION = { 'class' : "
         ++ body ++ " } AND DURABLE_WRITES = " ++ str_of_bool dw)
  /\ (forall rf' d,
        dcs = Some d ->
        create_alter_keyspace_cql keyspace rf' dw dcs is_alter
        = create_alter_keyspace_cql keyspace rf dw dcs is_alter).
Proof.
split.
- destruct dcs as [[|dc d]|].
  + exists "'NetworkTopologyStrategy',".
    etransitivity;
      [exact (proj1 (create_alter_keyspace_cql_empty_mapping keyspace rf dw
                       is_alter))|].
    text_norm. reflexivity.
  + exists ("'NetworkTopologyStrategy',  "
            ++ String.concat ", " (map dc_pair (dc :: d))).
    etransitivity;
      [exact (create_alter_keyspace_cql_network keyspace rf dw is_alter
                (dc :: d) ltac:(discriminate))|].
    unfold network_topology_statement. text_norm. reflexivity.
  + exists ("'SimpleStrategy', 'replication_factor': " ++ str_of_int rf).
    etransitivity; [apply create_alter_keyspace_cql_simple|].
    unfold simple_statement. text_norm. reflexivity.
- intros rf' d ->. reflexivity.
Qed.

Ltac expand_main :=
  unfold apply_state, reconcile, try_except, mbind, read, ret, exit_with,
    create_alter_keyspace, drop_keyspace, session_w_execute, mbind, ret;
  cbv beta.

Ltac split_state p :=
  destruct (String.eqb_spec (state p) "present") as [E|N];
  [ try rewrite E; change (String.eqb "present" "absent") with false
  | destruct (String.eqb_spec (state p) "absent") as [E'|N'] ].

(** X12: when the keyspace is not found, the desired state is present and
    the run is not a check, the invocation submits the CREATE statement
    without fetching or comparing anything, and reports a change together
    with the statement. *)
Theorem main_creates_a_missing_keyspace
    (h : host) (p : params) (sessions : Cluster * Cluster) (st : world server)
    (s' : server) :
  let text :=
    create_alter_keyspace_cql (name p) (replication_factor p)
      (durable_writes p) (data_centres p) false in
  establish h p = Ok sessions ->
  exists_ (name p) (srv st) = Ok false ->
  state p = "present" ->
  check_mode p = false ->
  write_execute (srv st) text = (s', None) ->
  run_main h p st
  = (Exited (exit_json {| changed := true; keyspace := name p;
                          cql := Some text |}),
     {| srv := s'; submitted := (submitted st ++ [text])%list |}).
Proof.
intros text Hest Hex Hstate Hmode Hw. subst text.
unfold main. rewrite Hest. expand_main.
rewrite Hex, Hstate, Hmode. cbn [String.eqb Ascii.eqb Bool.eqb].
rewrite Hw. reflexivity.
Qed.

(** X13: when the keyspace is found, the desired state is present, the diff
    reports a change and the run is not a check, the invocation submits the
    ALTER statement and reports a change together with the statement. *)
Theorem main_alters_a_changed_keyspace
    (h : host) (p : params) (sessions : Cluster * Cluster) (st : world server)
    (s' : server) :
  let text :=
    create_alter_keyspace_cql (name p) (replication_factor p)
      (durable_writes p) (data_centres p) true in
  establish h p = Ok sessions ->
  exists_ (name p) (srv st) = Ok true ->
  state p = "present" ->
  check_mode p = false ->
  is_changed (name p) (replication_factor p) (durable_writes p)
    (data_centres p) (srv st) = Ok true ->
  write_execute (srv st) text = (s', None) ->
  run_main h p st
  = (Exited (exit_json {| changed := true; keyspace := name p;
                          cql := Some text |}),
     {| srv := s'; submitted := (submitted st ++ [text])%list |}).
Proof.
intros text Hest Hex Hstate Hmode Hdiff Hw. subst text.
unfold main. rewrite Hest. expand_main.
rewrite Hex, Hstate, Hmode. cbn [String.eqb Ascii.eqb Bool.eqb].
rewrite Hdiff, Hw. reflexivity.
Qed.

(** X14: when the keyspace is found, the desired state is present and the
    diff reports no change, the invocation, check or not, reports no change,
    carries no statement, submits nothing and leaves the server as it
    was. *)
Theorem main_leaves_an_unchanged_keyspace
    (h : host) (p : params) (sessions : Cluster * Cluster) (st : world server) :
  establish h p = Ok sessions ->
  exists_ (name p) (srv st) = Ok true ->
  state p = "present" ->
  is_changed (name p) (replication_factor p) (durable_writes p)
    (data_centres p) (srv st) = Ok false ->
  run_main h p st
  = (Exited (exit_json {| changed := false; keyspace := name p; cql := None |}),
     st).
Proof.
intros Hest Hex Hstate Hdiff.
unfold main. rewrite Hest. expand_main.
rewrite Hex, Hstate. cbn [String.eqb Ascii.eqb Bool.eqb].
destruct (check_mode p); rewrite Hdiff; reflexivity.
Qed.

(** X15: an invocation hands the write session at most one statement, and
    only out of check mode: DROP KEYSPACE, CREATE KEYSPACE or ALTER KEYSPACE
    for the named keyspace.  When the session accepts it the invocation
    reports a change; when the session raises, the invocation fails with
    the generic message and the exception's text, the statement having been
    submitted. *)
Theorem main_submits_at_most_one_statement
    (h : host) (p : params) (st : world server) :
  snd (run_main h p st) = st
  \/ (check_mode p = false
      /\ exists text,
           (text = "DROP KEYSPACE " ++ name p
            \/ exists is_alter,
                 text = create_alter_keyspace_cql (name p) (replication_factor p)
                          (durable_writes p) (data_centres p) is_alter)
           /\ snd (run_main h p st)
              = {| srv := fst (write_execute (srv st) text);
                   submitted := (submitted st ++ [text])%list |}
           /\ match snd (write_execute (srv st) text) with
              | None =>
                  exists r, fst (run_main h p st) = Exited (exit_json r)
                            /\ changed r = true
              | Some e =>
                  fst (run_main h p st)
                  = Exited (fail_json ("An error occured: " ++ exn_str e))
              end).
Proof.
unfold main.
destruct (establish h p) as [sessions|e|x]; [|now left|now left].
expand_main.
destruct (keyspace_exists read_execute (name p) (srv st)) as [[|]|e|x];
  [ | | now left | now left ];
  (destruct (check_mode p);
   [ split_state p;
     try destruct (keyspace_is_changed export_as_string py_eval (name p)
                     (replication_factor p) (durable_writes p) (data_centres p)
                     (srv st)) as [[|]|e|x];
     now left | ]);
  split_state p;
  try destruct (keyspace_is_changed export_as_string py_eval (name p)
                  (replication_factor p) (durable_writes p) (data_centres p)
                  (srv st)) as [[|]|e|x];
  try (now left);
  match goal with
  | |- context [write_execute (srv st) ?t] =>
      right; split; [reflexivity|]; exists t;
      destruct (write_execute (srv st) t) as [s1 [e1|]]; cbn;
      (split; [eauto|]); split; eauto
  end.
Qed.

(** X16: an invocation that reports no change has submitted nothing, left
    the server as it was and carries no statement. *)
Theorem main_no_change_means_untouched
    (h : host) (p : params) (st st' : world server) (r : result_dict) :
  run_main h p st = (Exited (exit_json r), st') ->
  changed r = false ->
  st' = st /\ cql r = None /\ keyspace r = name p.
Proof.
unfold main.
destruct (establish h p) as [sessions|e|x] eqn:Hest; [| discriminate |].
2:{ intros H _. injection H as -> <-.
    apply establish_exits_by_fail_json in Hest as [msg Hmsg]. discriminate. }
expand_main.
destruct (keyspace_exists read_execute (name p) (srv st))
  as [[|]|e|x] eqn:Hex;
  [ | | | now apply keyspace_exists_no_exit in Hex ];
  destruct (check_mode p);
  split_state p;
  try (destruct (keyspace_is_changed export_as_string py_eval (name p)
                   (replication_factor p) (durable_writes p) (data_centres p)
                   (srv st)) as [[|]|e|x] eqn:Hdiff;
       [ | | | apply keyspace_is_changed_exits_by_fail_json in Hdiff
                 as [msg ->] ]);
  try destruct (write_execute (srv st) _) as [s1 [e1|]];
  cbn; intros H Hc; try discriminate;
  inversion H; subst; clear H; cbn in Hc; try discriminate;
  repeat split.
Qed.


(** *** Before the sessions are open *)

Lemma establish_after_checks (h : host) (p : params) :
  settings_ok h p = true ->
  establish h p
  = match open_sessions h p (effective_hosts h p) with
    | Raise e => SystemExit (fail_json (connection_failure e))
    | other => other
    end.
Proof.
unfold settings_ok, establish, needs_ca, effective_hosts.
rewrite !Bool.andb_true_iff, !Bool.negb_true_iff.
intros (((-> & ->) & ->) & ->). cbn [bind negb].
destruct (open_sessions h p _) as [ss|[]|x]; reflexivity.
Qed.

Lemma open_sessions_steps (h : host) (p : params) (hosts : list string) :
  tls_loads h p ->
  open_sessions h p hosts
  = (sessions <- get_read_and_write_sessions hosts (login_port p)
                   (credentials p) (tls_context p) (consistency_level p) ;;
     _ <- raise_if (connect h (fst sessions)) tt ;;
     _ <- raise_if (connect h (snd sessions)) tt ;;
     Ok sessions).
Proof.
intro Hload. unfold open_sessions, tls_context, tls_loads, needs_ca in *.
fold (credentials p).
destruct (ssl p); [|reflexivity].
destruct (contains _ (ssl_cert_reqs p)); [|reflexivity].
now rewrite (Hload eq_refl eq_refl).
Qed.



(** X20: when the sessions are open, the settings had been accepted, the
    two handles are the ones built for the effective hosts, the port, the
    credentials and the TLS context of the request, and both connected. *)
Theorem establish_opens_the_requested_handles
    (h : host) (p : params) (cluster_r cluster_w : Cluster) :
  establish h p = Ok (cluster_r, cluster_w) ->
  settings_ok h p = true
  /\ get_read_and_write_sessions (effective_hosts h p) (login_port p)
       (credentials p) (tls_context p) (consistency_level p)
     = Ok (cluster_r, cluster_w)
  /\ connect h cluster_r = None
  /\ connect h cluster_w = None
  /\ (forall c, c = cluster_r \/ c = cluster_w ->
        contact_points c = effective_hosts h p
        /\ port c = login_port p
        /\ auth_provider c = credentials p
        /\ ssl_context c = tls_context p).
Proof.
intro Hest.
assert (Hok : settings_ok h p = true).
{ revert Hest. unfold settings_ok, establish, needs_ca.
  destruct (HAS_CASSANDRA_DRIVER h); cbn [bind negb andb]; [|discriminate].
  destruct (negb (HAS_SSL_LIBRARY h) && ssl p)%bool; cbn [bind negb andb];
    [discriminate|].
  destruct (contains _ (ssl_cert_reqs p) && String.eqb _ _)%bool;
    cbn [bind negb andb]; [discriminate|].
  destruct (contains _ (ssl_cert_reqs p) && negb _)%bool;
    cbn [bind negb andb]; [discriminate|reflexivity]. }
split; [exact Hok|].
rewrite (establish_after_checks h p Hok) in Hest.
assert (Hload : tls_loads h p).
{ intros Hssl Hca. revert Hest. unfold open_sessions, needs_ca in *.
  rewrite Hssl, Hca.
  destruct (load_verify_locations h (ssl_ca_certs p)); [|reflexivity].
  cbn. destruct e; discriminate. }
rewrite (open_sessions_steps h p _ Hload) in Hest.
destruct (get_read_and_write_sessions _ _ _ _ _) as [[r w]|e|x] eqn:Hrun;
  cbn [bind fst snd] in Hest;
  [| destruct e; discriminate | discriminate].
destruct (connect h r) as [e|] eqn:Hr; cbn [raise_if bind] in Hest;
  [destruct e; discriminate|].
destruct (connect h w) as [e|] eqn:Hw; cbn [raise_if bind] in Hest;
  [destruct e; discriminate|].
injection Hest as <- <-. split; [reflexivity|]. split; [exact Hr|].
split; [exact Hw|].
revert Hrun. unfold get_read_and_write_sessions.
destruct (lookup name_to_value _); cbn [bind]; [|discriminate].
intro H. injection H as <- <-.
intros c [-> | ->];
  match goal with |- context [if ?b then _ else _] => destruct b end;
  repeat split.
Qed.

End Coverage.

(** X21: the exported text and the evaluator are consulted only when the
    keyspace is found and the desired state is present: in every other case
    the invocation is the same whatever the metadata holds. *)
Theorem main_fetches_only_to_compare
    {server : Type}
    (read_execute : server -> string -> exn + list string)
    (write_execute : server -> string -> server * option exn)
    (export1 export2 : server -> string -> option string)
    (eval1 eval2 : string -> exn + dict)
    (h : host) (p : params) (st : world server) :
  state p <> "present"
  \/ keyspace_exists read_execute (name p) (srv st) <> Ok true ->
  main read_execute export1 write_execute eval1 h p st
  = main read_execute export2 write_execute eval2 h p st.
Proof.
intro Hwhen. unfold main.
destruct (establish h p) as [sessions|e|x]; [|reflexivity|reflexivity].
unfold apply_state, reconcile, try_except, mbind, read, ret, exit_with.
cbv beta.
destruct (keyspace_exists read_execute (name p) (srv st)) as [[|]|e|x];
  try reflexivity;
  destruct (String.eqb_spec (state p) "present") as [E|N]; try reflexivity.
destruct Hwhen as [H|H]; [contradiction | now destruct H].
Qed.

(* ================================================================= *)
(** ** The further properties on the sample cluster *)

Lemma keyspace_exists_is_membership_witness :
  exists found,
    keyspace_exists Sample.select "ks" (srv (Sample.start Sample.simple_three))
      = Ok found
    /\ (found = true <-> In "ks" ["ks"]).
Proof.
exact (keyspace_exists_is_membership Sample.select "ks"
         (srv (Sample.start Sample.simple_three)) "3" ".11.4" [] ["ks"]
         eq_refl eq_refl eq_refl).
Defined.


Lemma main_existence_check_raises_witness :
  Sample.run (Sample.request "ks" "present" 1 true None false)
    Sample.unreleased
  = (Exited (fail_json
       "An error occured: invalid literal for int() with base 10: 'b'"),
     Sample.unreleased).
Proof.
exact (main_existence_check_raises Sample.select Sample.export Sample.execute
         Sample.eval Sample.machine
         (Sample.request "ks" "present" 1 true None false) Sample.sessions
         Sample.unreleased
         (ValueError "invalid literal for int() with base 10: 'b'")
         eq_refl eq_refl).
Defined.

Lemma get_keyspace_config_failures_witness :
  get_keyspace_config Sample.export Sample.eval "other"
    (srv (Sample.start Sample.simple_three))
  = Raise (KeyError "other").
Proof.
exact (proj1 (get_keyspace_config_failures Sample.export Sample.eval "other"
                (srv (Sample.start Sample.simple_three))) eq_refl).
Defined.

Lemma get_keyspace_config_keeps_the_map_witness :
  exists cfg,
    get_keyspace_config Sample.export Sample.eval "ks"
      (srv (Sample.start Sample.simple_three)) = Ok cfg
    /\ (forall k, k <> "durable_writes" ->
          get cfg k
          = get [ ("class", VStr "SimpleStrategy");
                  ("replication_factor", VStr "3") ] k)
    /\ (exists b, get cfg "durable_writes" = Some (VBool b))
    /\ (forall k,
          In k (keys cfg)
          <-> In k ["class"; "replication_factor"] \/ k = "durable_writes").
Proof.
exact (get_keyspace_config_keeps_the_map Sample.export Sample.eval "ks"
         (srv (Sample.start Sample.simple_three)) Sample.simple_three
         "{'class': 'SimpleStrategy', 'replication_factor': '3'}"
         [ ("class", VStr "SimpleStrategy"); ("replication_factor", VStr "3") ]
         eq_refl eq_refl eq_refl).
Defined.

Lemma search_dict_shape_witness :
  last_char "{'class': 'SimpleStrategy', 'replication_factor': '3'}"
    = Some "}"%char
  /\ occurs_in "{'class': 'SimpleStrategy', 'replication_factor': '3'}"
       Sample.simple_three.
Proof.
destruct (proj1 (search_dict_shape Sample.simple_three)
            "{'class': 'SimpleStrategy', 'replication_factor': '3'}" eq_refl)
  as (_ & Hlast & _ & Hocc).
exact (conj Hlast Hocc).
Defined.

Lemma keyspace_is_changed_simple_witness :
  keyspace_is_changed Sample.export Sample.eval "ks" 1 true None
    (srv (Sample.start Sample.simple_three)) = Ok true.
Proof.
exact (keyspace_is_changed_simple Sample.export Sample.eval "ks" 1 true None
         (srv (Sample.start Sample.simple_three))
         [ ("class", VStr "SimpleStrategy"); ("replication_factor", VStr "3");
           ("durable_writes", VBool true) ]
         (VStr "3") 3 true eq_refl eq_refl eq_refl eq_refl eq_refl).
Defined.

Lemma keyspace_is_changed_network_witness :
  let cfg := [ ("class", VStr "NetworkTopologyStrategy"); ("london", VStr "3");
               ("paris", VStr "3"); ("durable_writes", VBool true) ] in
  let dcs := [ ("london", VInt 3); ("tokyo", VInt 1) ] in
  exists b,
    keyspace_is_changed Sample.export Sample.eval "ks" 1 true (Some dcs)
      (srv (Sample.start Sample.network_two)) = Ok b
    /\ (b = true <->
        Exists (dc_differs cfg) dcs \/ exists k, dc_removed cfg dcs k).
Proof.
refine (keyspace_is_changed_network Sample.export Sample.eval "ks" 1 true
          [ ("london", VInt 3); ("tokyo", VInt 1) ]
          (srv (Sample.start Sample.network_two))
          [ ("class", VStr "NetworkTopologyStrategy"); ("london", VStr "3");
            ("paris", VStr "3"); ("durable_writes", VBool true) ]
          eq_refl eq_refl eq_refl _).
constructor; [|constructor; [|constructor]].
- right. exists (VStr "3"), 3, 3. repeat split.
- left. reflexivity.
Defined.

Lemma keyspace_is_changed_network_flag_witness :
  keyspace_is_changed Sample.export Sample.eval "ks" 1 false None
    (srv (Sample.start Sample.network_two)) = Ok true.
Proof.
refine (keyspace_is_changed_network_flag Sample.export Sample.eval "ks" 1
          false None (srv (Sample.start Sample.network_two))
          [ ("class", VStr "NetworkTopologyStrategy"); ("london", VStr "3");
            ("paris", VStr "3"); ("durable_writes", VBool true) ]
          true eq_refl eq_refl eq_refl _).
discriminate.
Defined.

Lemma keyspace_is_changed_missing_key_witness :
  Sample.run (Sample.request "ks" "present" 3 true None false)
    (Sample.start Sample.no_class)
  = (Exited (fail_json "An error occured: 'class'"),
     Sample.start Sample.no_class).
Proof.
refine (proj2 (keyspace_is_changed_missing_key Sample.select Sample.export
                 Sample.execute Sample.eval Sample.machine
                 (Sample.request "ks" "present" 3 true None false)
                 Sample.sessions (Sample.start Sample.no_class)
                 [ ("replication_factor", VStr "3");
                   ("durable_writes", VBool true) ]
                 "class" eq_refl _)
          eq_refl eq_refl eq_refl).
left. split; reflexivity.
Defined.

Lemma main_creates_a_missing_keyspace_witness :
  let text := "CREATE KEYSPACE shop WITH REPLICATION = { 'class' : 'SimpleStrategy', 'replication_factor': 3 } AND DURABLE_WRITES = True" in
  Sample.run (Sample.request "shop" "present" 3 true None false)
    (Sample.start Sample.simple_three)
  = (Exited (exit_json {| changed := true; keyspace := "shop";
                          cql := Some text |}),
     {| srv := {| Sample.release_version := "3.11.4";
                  Sample.exported :=
                    [ ("ks", Sample.simple_three); ("shop", text ++ ";") ] |};
        submitted := [text] |}).
Proof.
exact (main_creates_a_missing_keyspace Sample.select Sample.export
         Sample.execute Sample.eval Sample.machine
         (Sample.request "shop" "present" 3 true None false) Sample.sessions
         (Sample.start Sample.simple_three) _
         eq_refl eq_refl eq_refl eq_refl eq_refl).
Defined.

Lemma main_alters_a_changed_keyspace_witness :
  let text := "ALTER KEYSPACE ks WITH REPLICATION = { 'class' : 'SimpleStrategy', 'replication_factor': 1 } AND DURABLE_WRITES = True" in
  Sample.run (Sample.request "ks" "present" 1 true None false)
    (Sample.start Sample.simple_three)
  = (Exited (exit_json {| changed := true; keyspace := "ks";
                          cql := Some text |}),
     {| srv := {| Sample.release_version := "3.11.4";
                  Sample.exported := [ ("ks", text ++ ";") ] |};
        submitted := [text] |}).
Proof.
exact (main_alters_a_changed_keyspace Sample.select Sample.export
         Sample.execute Sample.eval Sample.machine
         (Sample.request "ks" "present" 1 true None false) Sample.sessions
         (Sample.start Sample.simple_three) _
         eq_refl eq_refl eq_refl eq_refl eq_refl eq_refl).
Defined.

Lemma main_leaves_an_unchanged_keyspace_witness :
  Sample.run (Sample.request "ks" "present" 3 true None false)
    (Sample.start Sample.simple_three)
  = (Exited (exit_json {| changed := false; keyspace := "ks"; cql := None |}),
     Sample.start Sample.simple_three).
Proof.
exact (main_leaves_an_unchanged_keyspace Sample.select Sample.export
         Sample.execute Sample.eval Sample.machine
         (Sample.request "ks" "present" 3 true None false) Sample.sessions
         (Sample.start Sample.simple_three)
         eq_refl eq_refl eq_refl eq_refl).
Defined.

Lemma main_no_change_means_untouched_witness :
  Sample.run (Sample.request "gone" "absent" 1 true None false)
    (Sample.start Sample.simple_three)
  = (Exited (exit_json {| changed := false; keyspace := "gone"; cql := None |}),
     Sample.start Sample.simple_three)
  /\ Sample.start Sample.simple_three = Sample.start Sample.simple_three.
Proof.
split; [reflexivity|].
exact (proj1 (main_no_change_means_untouched Sample.select Sample.export
                Sample.execute Sample.eval Sample.machine
                (Sample.request "gone" "absent" 1 true None false)
                (Sample.start Sample.simple_three)
                (Sample.start Sample.simple_three)
                {| changed := false; keyspace := "gone"; cql := None |}
                eq_refl eq_refl)).
Defined.



Lemma establish_opens_the_requested_handles_witness :
  settings_ok Sample.machine (Sample.request "ks" "present" 1 true None false)
    = true
  /\ contact_points (fst Sample.sessions) = ["127.0.0.1"]
  /\ port (fst Sample.sessions) = 9042.
Proof.
destruct (establish_opens_the_requested_handles Sample.machine
            (Sample.request "ks" "present" 1 true None false)
            (fst Sample.sessions) (snd Sample.sessions) eq_refl)
  as (Hok & _ & _ & _ & Hfields).
destruct (Hfields (fst Sample.sessions) (or_introl eq_refl))
  as (Hhosts & Hport & _).
exact (conj Hok (conj Hhosts Hport)).
Defined.

Lemma main_fetches_only_to_compare_witness :
  Sample.run (Sample.request "ks" "absent" 1 true None false)
    (Sample.start Sample.simple_three)
  = main Sample.select (fun _ _ => None) Sample.execute
      (fun _ => inl (EvalError "not evaluated")) Sample.machine
      (Sample.request "ks" "absent" 1 true None false)
      (Sample.start Sample.simple_three).
Proof.
refine (main_fetches_only_to_compare Sample.select Sample.execute
          Sample.export (fun _ _ => None) Sample.eval
          (fun _ => inl (EvalError "not evaluated")) Sample.machine
          (Sample.request "ks" "absent" 1 true None false)
          (Sample.start Sample.simple_three) _).
left. discriminate.
Defined.
